(** * Football API (app/main.py): filters, test-data guard and cleanup

    A shallow embedding of the request handlers of [app/main.py] over an
    explicit model of the document store they talk to.  The database
    [db = client.football] is a record of three collections; a handler is
    a state-passing computation over it that either returns a value or
    raises. *)

From Stdlib Require Import ZArith Ascii String List Bool Lia.
From stdpp Require Import base option list strings gmap fin_maps.

Local Open Scope string_scope.
Local Open Scope Z_scope.

(** ** Stored values *)

(** [bson.ObjectId]: twelve bytes, kept as the 24 lower-case hexadecimal
    digits that [str(oid)] prints. *)
Inductive ObjectId := OID (hex : string).

#[global] Instance ObjectId_eq_dec : EqDecision ObjectId.
Proof. solve_decision. Defined.

(** The values a field of a document holds: [None], a boolean, an
    integer, a text, a [datetime] (milliseconds since the epoch) or an
    [ObjectId]. *)
Inductive value :=
| VNull
| VBool (b : bool)
| VInt (n : Z)
| VStr (s : string)
| VDate (t : Z)
| VOid (o : ObjectId).

#[global] Instance value_eq_dec : EqDecision value.
Proof. solve_decision. Defined.

(** A document, and a Python [dict] with string keys holding such
    values. *)
Abbreviation Doc := (gmap string value).

(** ** Characters *)

Definition is_upper (c : ascii) : bool :=
  let n := nat_of_ascii c in ((65 <=? n) && (n <=? 90))%nat.

Definition is_lower (c : ascii) : bool :=
  let n := nat_of_ascii c in ((97 <=? n) && (n <=? 122))%nat.

Definition is_digit (c : ascii) : bool :=
  let n := nat_of_ascii c in ((48 <=? n) && (n <=? 57))%nat.

Definition is_alnum (c : ascii) : bool :=
  is_upper c || is_lower c || is_digit c.

(** ASCII case folding: [A]..[Z] to [a]..[z], every other character as
    it is. *)
Definition fold_case (c : ascii) : ascii :=
  if is_upper c then ascii_of_nat (nat_of_ascii c + 32) else c.

Definition is_hex (c : ascii) : bool :=
  let n := nat_of_ascii c in
  is_digit c || ((65 <=? n) && (n <=? 70))%nat || ((97 <=? n) && (n <=? 102))%nat.

Fixpoint chars (s : string) : list ascii :=
  match s with
  | EmptyString => []
  | String c r => c :: chars r
  end.

Fixpoint text (l : list ascii) : string :=
  match l with
  | [] => EmptyString
  | c :: r => String c (text r)
  end.

(** ** ObjectId(s) *)

(** [ObjectId(s)] for a [str]: accepted when [s] has 24 characters, all
    hexadecimal digits; [InvalidId] (here [None]) otherwise.  Upper- and
    lower-case digits denote the same twelve bytes. *)
Definition ObjectId_of (s : string) : option ObjectId :=
  if ((String.length s =? 24)%nat && forallb is_hex (chars s))%bool
  then Some (OID (text (map fold_case (chars s))))
  else None.

(** [str(oid)]. *)
Definition str_oid (o : ObjectId) : string :=
  match o with OID h => h end.

(** ** Regular expressions, as the store matches them

    [$regex] hands the pattern to the store's PCRE engine.  The fragment
    modelled here: a character that is not a metacharacter stands for
    itself, [.] stands for any character but a newline, and a backslash
    before a character that is neither a letter nor a digit makes that
    character literal.  Any other pattern is outside the fragment
    ([None]). *)

Inductive atom :=
| Lit (c : ascii)
| AnyChar.

Definition metachars : list ascii := chars "\^$.|?*+()[]{}".

Definition is_meta (c : ascii) : bool :=
  existsb (Ascii.eqb c) metachars.

Definition backslash : ascii := ascii_of_nat 92.
Definition full_stop : ascii := ascii_of_nat 46.
Definition newline : ascii := ascii_of_nat 10.

Fixpoint compile (p : list ascii) : option (list atom) :=
  match p with
  | [] => Some []
  | c :: r =>
      if Ascii.eqb c backslash then
        match r with
        | [] => None
        | e :: r' =>
            if is_alnum e then None
            else match compile r' with
                 | Some l => Some (Lit e :: l)
                 | None => None
                 end
        end
      else
        match compile r with
        | Some l =>
            if Ascii.eqb c full_stop then Some (AnyChar :: l)
            else if is_meta c then None
            else Some (Lit c :: l)
        | None => None
        end
  end.

(** Does the atom accept the character?  [caseless] is the [i] option. *)
Definition atom_accepts (caseless : bool) (a : atom) (c : ascii) : bool :=
  match a with
  | Lit x =>
      if caseless then Ascii.eqb (fold_case x) (fold_case c)
      else Ascii.eqb x c
  | AnyChar => negb (Ascii.eqb c newline)
  end.

Fixpoint match_here (caseless : bool) (r : list atom) (s : list ascii) : bool :=
  match r with
  | [] => true
  | a :: r' =>
      match s with
      | [] => false
      | c :: s' => atom_accepts caseless a c && match_here caseless r' s'
      end
  end.

(** An unanchored pattern matches when it matches at some offset. *)
Fixpoint search (caseless : bool) (r : list atom) (s : list ascii) : bool :=
  match_here caseless r s ||
  match s with
  | [] => false
  | _ :: s' => search caseless r s'
  end.

(** The options string: empty, or [i]. *)
Definition caseless_of (options : string) : option bool :=
  if String.eqb options "" then Some false
  else if String.eqb options "i" then Some true
  else None.

Definition regex_search (pattern options subject : string) : option bool :=
  match compile (chars pattern), caseless_of options with
  | Some r, Some ci => Some (search ci r (chars subject))
  | _, _ => None
  end.


(** ** Queries

    A query is the [dict] the handlers build.  Under a key it holds a
    plain value (equality), a document of operators ([$regex] with
    [$options], [$gte], [$lte]), or, under [$or], a list of
    alternatives, each a document of equalities. *)

Inductive qvalue :=
| QVal (v : value)
| QOps (ops : gmap string value)
| QAlts (alts : list (gmap string value)).

Abbreviation Query := (gmap string qvalue).

(** [{k: v}]: the field holds [v]; with [v] null, also when the field
    is missing. *)
Definition eq_match (field : option value) (v : value) : bool :=
  bool_decide (field = Some v)
  || (bool_decide (v = VNull) && bool_decide (field = None)).

(** [$gte] and [$lte] compare within one type only: an integer bound
    admits integer fields, a date bound admits date fields. *)
Definition bound_match (rel : Z → Z → bool) (bound field : option value) : bool :=
  match bound with
  | None => true
  | Some (VInt b) =>
      match field with Some (VInt x) => rel x b | _ => false end
  | Some (VDate b) =>
      match field with Some (VDate x) => rel x b | _ => false end
  | Some _ => false
  end.

Definition options_of (ops : gmap string value) : option string :=
  match ops !! "$options" with
  | None => Some ""
  | Some (VStr o) => Some o
  | Some _ => None
  end.

(** [$regex] admits text fields only. *)
Definition regex_match (ops : gmap string value) (field : option value) : bool :=
  match ops !! "$regex" with
  | None => true
  | Some (VStr p) =>
      match field, options_of ops with
      | Some (VStr s), Some o => default false (regex_search p o s)
      | _, _ => false
      end
  | Some _ => false
  end.

Definition ops_match (ops : gmap string value) (field : option value) : bool :=
  bound_match Z.geb (ops !! "$gte") field
  && bound_match Z.leb (ops !! "$lte") field
  && regex_match ops field.

Definition alt_match (d : Doc) (alt : gmap string value) : bool :=
  bool_decide (map_Forall (λ k v, eq_match (d !! k) v = true) alt).

Definition entry_match (d : Doc) (k : string) (c : qvalue) : bool :=
  match c with
  | QVal v => eq_match (d !! k) v
  | QOps ops => ops_match ops (d !! k)
  | QAlts alts => existsb (alt_match d) alts
  end.

(** A document matches a query when it matches every entry. *)
Definition qmatch (q : Query) (d : Doc) : bool :=
  bool_decide (map_Forall (λ k c, entry_match d k c = true) q).

(** The queries this model gives a meaning to.  The store rejects or
    reads differently anything else: an operator it does not know, a
    bound that is neither an integer nor a date, a pattern outside the
    fragment of [compile], [$options] without [$regex], [$or] over
    anything but a non-empty list. *)
Definition is_bound (b : option value) : bool :=
  match b with
  | None | Some (VInt _) | Some (VDate _) => true
  | Some _ => false
  end.

Definition regex_supported (ops : gmap string value) : bool :=
  match ops !! "$regex", ops !! "$options" with
  | None, None => true
  | None, Some _ => false
  | Some (VStr p), _ =>
      match options_of ops with
      | Some o => bool_decide (is_Some (regex_search p o ""))
      | None => false
      end
  | Some _, _ => false
  end.

Definition ops_supported (ops : gmap string value) : bool :=
  bool_decide (dom ops ⊆ ({["$gte"; "$lte"; "$regex"; "$options"]} : gset string))
  && bool_decide (ops ≠ ∅)
  && is_bound (ops !! "$gte") && is_bound (ops !! "$lte")
  && regex_supported ops.

Definition is_operator (k : string) : bool :=
  match k with
  | String c _ => Ascii.eqb c (ascii_of_nat 36)
  | EmptyString => false
  end.

Definition entry_supported (k : string) (c : qvalue) : bool :=
  match c with
  | QVal _ => negb (is_operator k)
  | QOps ops => negb (is_operator k) && ops_supported ops
  | QAlts alts =>
      String.eqb k "$or" && negb (bool_decide (alts = []))
      && forallb (λ alt, bool_decide (map_Forall (λ k _, is_operator k = false) alt)) alts
  end.

Definition query_supported (q : Query) : bool :=
  bool_decide (map_Forall (λ k c, entry_supported k c = true) q).

(** ** The database and the handler monad *)

(** [db = client.football]: the collections [db.players], [db.teams]
    and [db.matches], each in the store's natural (insertion) order. *)
Record Db := mkDb {
  players : list Doc;
  teams : list Doc;
  matches : list Doc
}.

Inductive Collection := Players | Teams | Matches.

Definition docs (c : Collection) (s : Db) : list Doc :=
  match c with
  | Players => players s
  | Teams => teams s
  | Matches => matches s
  end.

Definition with_docs (c : Collection) (l : list Doc) (s : Db) : Db :=
  match c with
  | Players => mkDb l (teams s) (matches s)
  | Teams => mkDb (players s) l (matches s)
  | Matches => mkDb (players s) (teams s) l
  end.

(** What a handler can raise.  [HTTPException] is the handlers' own;
    [RequestValidationError] is the framework refusing the request
    (status 422); [InvalidId], [KeyError] and [DuplicateKeyError] are
    Python and driver exceptions; [NotModelled] marks an input this
    development gives no meaning to. *)
Inductive exn :=
| HTTPException (status_code : Z) (detail : string)
| RequestValidationError
| InvalidId
| KeyError (key : string)
| DuplicateKeyError
| NotModelled.

Inductive outcome (A : Type) :=
| Ok (a : A)
| Raised (e : exn).

Arguments Ok {A} a.
Arguments Raised {A} e.

#[global] Instance outcome_ret : MRet outcome := λ A a, Ok a.
#[global] Instance outcome_bind : MBind outcome := λ A B f m,
  match m with
  | Ok a => f a
  | Raised e => Raised e
  end.

(** A handler: it reads and writes the database, and returns or
    raises. *)
Definition M (A : Type) : Type := Db → outcome A * Db.

#[global] Instance M_ret : MRet M := λ A a s, (Ok a, s).
#[global] Instance M_bind : MBind M := λ A B f m s,
  match m s with
  | (Ok a, s') => f a s'
  | (Raised e, s') => (Raised e, s')
  end.

Definition raise {A} (e : exn) : M A := λ s, (Raised e, s).

Definition lift {A} (o : outcome A) : M A := λ s, (o, s).

(** [try: m except Exception: h].  Every Python exception is caught;
    [NotModelled] is not one. *)
Definition try_except {A} (m h : M A) : M A := λ s,
  match m s with
  | (Ok a, s') => (Ok a, s')
  | (Raised NotModelled, s') => (Raised NotModelled, s')
  | (Raised _, s') => h s'
  end.

(** ** The collection methods of the driver *)

Definition cursor (c : Collection) (q : Query) (s : Db) : list Doc :=
  List.filter (qmatch q) (docs c s).

Definition find_one (c : Collection) (q : Query) : M (option Doc) := λ s,
  if query_supported q then (Ok (head (cursor c q s)), s)
  else (Raised NotModelled, s).

(** [find(q).skip(skip).limit(limit)] read with [to_list(length=limit)],
    for [skip >= 0] and [limit >= 1]. *)
Definition find (c : Collection) (q : Query) (skip limit : Z) : M (list Doc) := λ s,
  if query_supported q
  then (Ok (take (Z.to_nat limit) (drop (Z.to_nat skip) (cursor c q s))), s)
  else (Raised NotModelled, s).

(** [insert_one(d)] gives [d] the driver's fresh [_id] when it has none
    (the caller's [dict] is updated in place, so the updated document is
    returned next to [inserted_id]); the unique index on [_id] refuses a
    second document with the same one. *)
Definition insert_one (c : Collection) (d : Doc) (fresh : ObjectId) : M (value * Doc) := λ s,
  let id := default (VOid fresh) (d !! "_id") in
  let d' := <["_id" := id]> d in
  if existsb (λ e, bool_decide (e !! "_id" = Some id)) (docs c s)
  then (Raised DuplicateKeyError, s)
  else (Ok (id, d'), with_docs c (docs c s ++ [d']) s).

Fixpoint update_first (p : Doc → bool) (f : Doc → Doc) (l : list Doc) : list Doc :=
  match l with
  | [] => []
  | d :: r => if p d then f d :: r else d :: update_first p f r
  end.

Fixpoint delete_first (p : Doc → bool) (l : list Doc) : list Doc :=
  match l with
  | [] => []
  | d :: r => if p d then r else d :: delete_first p r
  end.

(** [update_one(q, {"$set": fields})]: the first document matching [q]
    takes the given fields, and keeps its others. *)
Definition update_one_set (c : Collection) (q : Query) (fields : Doc) : M unit := λ s,
  if query_supported q
  then (Ok (), with_docs c (update_first (qmatch q) (λ d, fields ∪ d) (docs c s)) s)
  else (Raised NotModelled, s).

Definition delete_one (c : Collection) (q : Query) : M unit := λ s,
  if query_supported q
  then (Ok (), with_docs c (delete_first (qmatch q) (docs c s)) s)
  else (Raised NotModelled, s).

(** [delete_many(q)], returning [deleted_count]. *)
Definition delete_many (c : Collection) (q : Query) : M Z := λ s,
  if query_supported q
  then (Ok (Z.of_nat (length (cursor c q s))),
        with_docs c (List.filter (λ d, negb (qmatch q d)) (docs c s)) s)
  else (Raised NotModelled, s).

(** ** Python values *)

(** Truth value of [d.get(k)]: [None], [False], [0] and the empty text
    are false, everything else is true. *)
Definition truthy (v : option value) : bool :=
  match v with
  | None | Some VNull => false
  | Some (VBool b) => b
  | Some (VInt n) => negb (n =? 0)
  | Some (VStr s) => negb (String.eqb s "")
  | Some (VDate _) | Some (VOid _) => true
  end.

(** Truth value of an [Optional[str]] parameter. *)
Definition supplied (p : option string) : bool :=
  match p with
  | Some s => negb (String.eqb s "")
  | None => false
  end.

(** Truth value of the result of [find_one]: [None] and the empty
    [dict] are false. *)
Definition found (doc : option Doc) : bool :=
  match doc with
  | Some d => bool_decide (d ≠ ∅)
  | None => false
  end.

(** [str(v)] for the values an [_id] holds here: an [ObjectId] prints
    its hexadecimal digits, a text is itself. *)
Definition str (v : value) : option string :=
  match v with
  | VOid o => Some (str_oid o)
  | VStr s => Some s
  | _ => None
  end.

(** [serialize_doc]: a non-empty document gets its [_id] replaced by
    its text; [None] and the empty [dict] are returned as they are. *)
Definition serialize_doc (doc : option Doc) : outcome (option Doc) :=
  if found doc then
    match doc ≫= (.!! "_id") with
    | None => Raised (KeyError "_id")
    | Some id =>
        match str id with
        | Some t => Ok ((<["_id" := VStr t]>) <$> doc)
        | None => Raised NotModelled
        end
    end
  else Ok doc.

(** ** Models

    The request bodies.  A body arrives as a JSON object, read here as a
    document whose values are null, booleans, integers, texts and
    date-times; [validate] is what the framework does with it before
    the handler runs: a missing or ill-typed required field, or an
    ill-typed optional one, is refused; keys the model does not declare
    are ignored. *)

Definition of_text (o : option string) : value := from_option VStr VNull o.
Definition of_int (o : option Z) : value := from_option VInt VNull o.
Definition of_date (o : option Z) : value := from_option VDate VNull o.

(** [name: str] *)
Definition required_str (body : Doc) (k : string) : outcome string :=
  match body !! k with
  | Some (VStr s) => Ok s
  | Some (VDate _) | Some (VOid _) => Raised NotModelled
  | _ => Raised RequestValidationError
  end.

(** [position: Optional[str] = None] *)
Definition optional_str (body : Doc) (k : string) : outcome (option string) :=
  match body !! k with
  | None | Some VNull => Ok None
  | Some (VStr s) => Ok (Some s)
  | Some (VDate _) | Some (VOid _) => Raised NotModelled
  | Some _ => Raised RequestValidationError
  end.

(** [age: Optional[int] = None]; which texts and booleans the framework
    would convert to an integer is not modelled. *)
Definition optional_int (body : Doc) (k : string) : outcome (option Z) :=
  match body !! k with
  | None | Some VNull => Ok None
  | Some (VInt n) => Ok (Some n)
  | Some _ => Raised NotModelled
  end.

(** [date: Optional[datetime] = None]; a date-time in the body is taken
    as already read from its text. *)
Definition optional_datetime (body : Doc) (k : string) : outcome (option Z) :=
  match body !! k with
  | None | Some VNull => Ok None
  | Some (VDate t) => Ok (Some t)
  | Some _ => Raised NotModelled
  end.

(** The framework validates every field and refuses the body when any
    of them fails, whatever the others are. *)
Definition collect {A B} (f : outcome (A → B)) (x : outcome A) : outcome B :=
  match f, x with
  | Ok g, Ok a => Ok (g a)
  | Raised RequestValidationError, _ => Raised RequestValidationError
  | _, Raised RequestValidationError => Raised RequestValidationError
  | Raised e, _ => Raised e
  | _, Raised e => Raised e
  end.

Infix "<*>" := collect (at level 61, left associativity).

Module PlayerCreate.
Record t := Build {
  name : string;
  position : option string;
  team_id : option string;
  age : option Z;
  nationality : option string
}.

Definition model_dump (m : t) : Doc :=
  <["name" := VStr (name m)]> (
  <["position" := of_text (position m)]> (
  <["team_id" := of_text (team_id m)]> (
  <["age" := of_int (age m)]> (
  <["nationality" := of_text (nationality m)]> ∅)))).

Definition validate (body : Doc) : outcome t :=
  Ok Build
  <*> required_str body "name"
  <*> optional_str body "position"
  <*> optional_str body "team_id"
  <*> optional_int body "age"
  <*> optional_str body "nationality".
End PlayerCreate.

Module PlayerUpdate.
Record t := Build {
  name : option string;
  position : option string;
  team_id : option string;
  age : option Z;
  nationality : option string
}.

Definition model_dump (m : t) : Doc :=
  <["name" := of_text (name m)]> (
  <["position" := of_text (position m)]> (
  <["team_id" := of_text (team_id m)]> (
  <["age" := of_int (age m)]> (
  <["nationality" := of_text (nationality m)]> ∅)))).

Definition validate (body : Doc) : outcome t :=
  Ok Build
  <*> optional_str body "name"
  <*> optional_str body "position"
  <*> optional_str body "team_id"
  <*> optional_int body "age"
  <*> optional_str body "nationality".
End PlayerUpdate.

Module TeamCreate.
Record t := Build {
  name : string;
  country : option string;
  league : option string;
  stadium : option string
}.

Definition model_dump (m : t) : Doc :=
  <["name" := VStr (name m)]> (
  <["country" := of_text (country m)]> (
  <["league" := of_text (league m)]> (
  <["stadium" := of_text (stadium m)]> ∅))).

Definition validate (body : Doc) : outcome t :=
  Ok Build
  <*> required_str body "name"
  <*> optional_str body "country"
  <*> optional_str body "league"
  <*> optional_str body "stadium".
End TeamCreate.

Module TeamUpdate.
Record t := Build {
  name : option string;
  country : option string;
  league : option string;
  stadium : option string
}.

Definition model_dump (m : t) : Doc :=
  <["name" := of_text (name m)]> (
  <["country" := of_text (country m)]> (
  <["league" := of_text (league m)]> (
  <["stadium" := of_text (stadium m)]> ∅))).

Definition validate (body : Doc) : outcome t :=
  Ok Build
  <*> optional_str body "name"
  <*> optional_str body "country"
  <*> optional_str body "league"
  <*> optional_str body "stadium".
End TeamUpdate.

Module MatchCreate.
Record t := Build {
  home_team_id : string;
  away_team_id : string;
  date : option Z;
  home_score : option Z;
  away_score : option Z;
  stadium : option string
}.

Definition model_dump (m : t) : Doc :=
  <["home_team_id" := VStr (home_team_id m)]> (
  <["away_team_id" := VStr (away_team_id m)]> (
  <["date" := of_date (date m)]> (
  <["home_score" := of_int (home_score m)]> (
  <["away_score" := of_int (away_score m)]> (
  <["stadium" := of_text (stadium m)]> ∅))))).

Definition validate (body : Doc) : outcome t :=
  Ok Build
  <*> required_str body "home_team_id"
  <*> required_str body "away_team_id"
  <*> optional_datetime body "date"
  <*> optional_int body "home_score"
  <*> optional_int body "away_score"
  <*> optional_str body "stadium".
End MatchCreate.

Module MatchUpdate.
Record t := Build {
  home_team_id : option string;
  away_team_id : option string;
  date : option Z;
  home_score : option Z;
  away_score : option Z;
  stadium : option string
}.

Definition model_dump (m : t) : Doc :=
  <["home_team_id" := of_text (home_team_id m)]> (
  <["away_team_id" := of_text (away_team_id m)]> (
  <["date" := of_date (date m)]> (
  <["home_score" := of_int (home_score m)]> (
  <["away_score" := of_int (away_score m)]> (
  <["stadium" := of_text (stadium m)]> ∅))))).

Definition validate (body : Doc) : outcome t :=
  Ok Build
  <*> optional_str body "home_team_id"
  <*> optional_str body "away_team_id"
  <*> optional_datetime body "date"
  <*> optional_int body "home_score"
  <*> optional_int body "away_score"
  <*> optional_str body "stadium".
End MatchUpdate.

(** ** The handlers of one collection

    The five handlers are written three times in the source, once per
    collection, differing in the collection and in the noun of their
    messages only; here they are written once over the collection. *)

Definition noun (c : Collection) : string :=
  match c with
  | Players => "player"
  | Teams => "team"
  | Matches => "match"
  end.

Definition Noun (c : Collection) : string :=
  match c with
  | Players => "Player"
  | Teams => "Team"
  | Matches => "Match"
  end.

Definition by_id (oid : ObjectId) : Query := {["_id" := QVal (VOid oid)]}.

(** [ObjectId(id)], raising [InvalidId]. *)
Definition ObjectId_ (id : string) : M ObjectId :=
  match ObjectId_of id with
  | Some oid => mret oid
  | None => raise InvalidId
  end.

Definition invalid_id (c : Collection) : exn :=
  HTTPException 400 ("Invalid " ++ noun c ++ " ID format").

Definition not_found (c : Collection) : exn :=
  HTTPException 404 (Noun c ++ " not found").

Definition cannot_modify : exn :=
  HTTPException 403 "Cannot modify real data. Only test data can be updated.".

Definition cannot_delete : exn :=
  HTTPException 403 "Cannot delete real data. Only test data can be deleted.".

Section Handlers.
Variable c : Collection.

(** [get_player], [get_team], [get_match] *)
Definition get_doc (id : string) : M (option Doc) :=
  doc ← try_except (oid ← ObjectId_ id; find_one c (by_id oid))
                   (raise (invalid_id c));
  if negb (found doc) then raise (not_found c)
  else lift (serialize_doc doc).

(** [create_player], [create_team], [create_match], on the dumped
    model; [fresh] is the identifier the driver draws and [now] is
    [datetime.utcnow()]. *)
Definition create_doc (dump : Doc) (fresh : ObjectId) (now : Z) : M Doc :=
  let doc := <["is_test" := VBool true]> dump in
  let doc := <["created_at" := VDate now]> doc in
  '(inserted_id, doc) ← insert_one c doc fresh;
  match str inserted_id with
  | Some t => mret (<["_id" := VStr t]> doc)
  | None => raise NotModelled
  end.

(** [update_player], [update_team], [update_match], on the dumped
    model. *)
Definition update_doc (id : string) (dump : Doc) (now : Z) : M (option Doc) :=
  existing ← try_except (oid ← ObjectId_ id; find_one c (by_id oid))
                        (raise (invalid_id c));
  if negb (found existing) then raise (not_found c)
  else if negb (truthy (existing ≫= (.!! "is_test"))) then raise cannot_modify
  else
    let update_data : Doc := filter (λ kv, kv.2 ≠ VNull) dump in
    _ ← (if bool_decide (update_data ≠ ∅) then
           let update_data := <["updated_at" := VDate now]> update_data in
           oid ← ObjectId_ id;
           update_one_set c (by_id oid) update_data
         else mret ());
    oid ← ObjectId_ id;
    updated ← find_one c (by_id oid);
    lift (serialize_doc updated).

(** [delete_player], [delete_team], [delete_match] *)
Definition delete_doc (id : string) : M Doc :=
  existing ← try_except (oid ← ObjectId_ id; find_one c (by_id oid))
                        (raise (invalid_id c));
  if negb (found existing) then raise (not_found c)
  else if negb (truthy (existing ≫= (.!! "is_test"))) then raise cannot_delete
  else
    oid ← ObjectId_ id;
    _ ← delete_one c (by_id oid);
    mret {["message" := VStr (Noun c ++ " deleted successfully")]}.

(** The end of the three list handlers: the parameter bounds
    [limit: ge=1, le=1000] and [skip: ge=0] with their defaults, the
    query, and the serialisation of what it finds. *)
Definition list_docs (query : Query) (limit skip : option Z) : M (list (option Doc)) :=
  let limit := default 100 limit in
  let skip := default 0 skip in
  if negb ((1 <=? limit) && (limit <=? 1000) && (0 <=? skip))
  then raise RequestValidationError
  else
    found ← find c query skip limit;
    lift (mapM (λ d, serialize_doc (Some d)) found).
End Handlers.

(** ** Players *)

Definition regex_i (pattern : string) : qvalue :=
  QOps (<["$regex" := VStr pattern]> {["$options" := VStr "i"]}).

(** [query.setdefault(k, {})[op] = v] *)
Definition setdefault_set (k op : string) (v : value) (query : Query) : Query :=
  match query !! k with
  | Some (QOps ops) => <[k := QOps (<[op := v]> ops)]> query
  | Some _ => query
  | None => <[k := QOps {[op := v]}]> query
  end.

Definition players_query (name position team_id nationality : option string)
    (min_age max_age : option Z) (is_test : option bool) : Query :=
  let query : Query := ∅ in
  let query := if supplied name then <["name" := regex_i (default "" name)]> query else query in
  let query := if supplied position then <["position" := regex_i (default "" position)]> query else query in
  let query := if supplied team_id then <["team_id" := QVal (VStr (default "" team_id))]> query else query in
  let query := if supplied nationality then <["nationality" := regex_i (default "" nationality)]> query else query in
  let query := match min_age with
               | Some a => <["age" := QOps {["$gte" := VInt a]}]> query
               | None => query
               end in
  let query := match max_age with
               | Some a => setdefault_set "age" "$lte" (VInt a) query
               | None => query
               end in
  let query := match is_test with
               | Some b => <["is_test" := QVal (VBool b)]> query
               | None => query
               end in
  query.

Definition get_players (name position team_id nationality : option string)
    (min_age max_age : option Z) (is_test : option bool)
    (limit skip : option Z) : M (list (option Doc)) :=
  list_docs Players
    (players_query name position team_id nationality min_age max_age is_test)
    limit skip.

Definition get_player : string → M (option Doc) := get_doc Players.

Definition create_player (player : PlayerCreate.t) : ObjectId → Z → M Doc :=
  create_doc Players (PlayerCreate.model_dump player).

Definition update_player (player_id : string) (player : PlayerUpdate.t) : Z → M (option Doc) :=
  update_doc Players player_id (PlayerUpdate.model_dump player).

Definition delete_player : string → M Doc := delete_doc Players.

(** ** Teams *)

Definition teams_query (name country league : option string)
    (is_test : option bool) : Query :=
  let query : Query := ∅ in
  let query := if supplied name then <["name" := regex_i (default "" name)]> query else query in
  let query := if supplied country then <["country" := regex_i (default "" country)]> query else query in
  let query := if supplied league then <["league" := regex_i (default "" league)]> query else query in
  let query := match is_test with
               | Some b => <["is_test" := QVal (VBool b)]> query
               | None => query
               end in
  query.

Definition get_teams (name country league : option string) (is_test : option bool)
    (limit skip : option Z) : M (list (option Doc)) :=
  list_docs Teams (teams_query name country league is_test) limit skip.


Definition create_team (team : TeamCreate.t) : ObjectId → Z → M Doc :=
  create_doc Teams (TeamCreate.model_dump team).

Definition update_team (team_id : string) (team : TeamUpdate.t) : Z → M (option Doc) :=
  update_doc Teams team_id (TeamUpdate.model_dump team).

Definition delete_team : string → M Doc := delete_doc Teams.

(** ** Matches *)

(** [if date_from:] and [if date_to:] test a [datetime], which is true
    whenever it is not [None]. *)
Definition matches_query (home_team_id away_team_id team_id stadium : option string)
    (date_from date_to : option Z) (is_test : option bool) : Query :=
  let query : Query := ∅ in
  let query := if supplied home_team_id
               then <["home_team_id" := QVal (VStr (default "" home_team_id))]> query
               else query in
  let query := if supplied away_team_id
               then <["away_team_id" := QVal (VStr (default "" away_team_id))]> query
               else query in
  let query := if supplied team_id
               then <["$or" := QAlts [ {["home_team_id" := VStr (default "" team_id)]};
                                       {["away_team_id" := VStr (default "" team_id)]} ]]> query
               else query in
  let query := if supplied stadium then <["stadium" := regex_i (default "" stadium)]> query else query in
  let query := match date_from with
               | Some t => <["date" := QOps {["$gte" := VDate t]}]> query
               | None => query
               end in
  let query := match date_to with
               | Some t => setdefault_set "date" "$lte" (VDate t) query
               | None => query
               end in
  let query := match is_test with
               | Some b => <["is_test" := QVal (VBool b)]> query
               | None => query
               end in
  query.

Definition get_matches (home_team_id away_team_id team_id stadium : option string)
    (date_from date_to : option Z) (is_test : option bool)
    (limit skip : option Z) : M (list (option Doc)) :=
  list_docs Matches
    (matches_query home_team_id away_team_id team_id stadium date_from date_to is_test)
    limit skip.


Definition create_match (match_ : MatchCreate.t) : ObjectId → Z → M Doc :=
  create_doc Matches (MatchCreate.model_dump match_).

Definition update_match (match_id : string) (match_ : MatchUpdate.t) : Z → M (option Doc) :=
  update_doc Matches match_id (MatchUpdate.model_dump match_).

Definition delete_match : string → M Doc := delete_doc Matches.

(** ** Cleanup *)

Record Cleanup := mkCleanup {
  message : string;
  deleted : gmap string Z
}.

Definition test_data : Query := {["is_test" := QVal (VBool true)]}.

Definition cleanup_test_data : M Cleanup :=
  players_result ← delete_many Players test_data;
  teams_result ← delete_many Teams test_data;
  matches_result ← delete_many Matches test_data;
  mret (mkCleanup "Test data cleaned up"
          (<["players" := players_result]> (
           <["teams" := teams_result]> (
           <["matches" := matches_result]> ∅)))).

(** ** The routes that take a body

    [POST /players], [PUT /players/{id}] and their like: the framework
    validates the body into the model, then calls the handler. *)

Definition post_players (body : Doc) (fresh : ObjectId) (now : Z) : M Doc :=
  player ← lift (PlayerCreate.validate body); create_player player fresh now.

Definition post_teams (body : Doc) (fresh : ObjectId) (now : Z) : M Doc :=
  team ← lift (TeamCreate.validate body); create_team team fresh now.

Definition post_matches (body : Doc) (fresh : ObjectId) (now : Z) : M Doc :=
  match_ ← lift (MatchCreate.validate body); create_match match_ fresh now.

Definition put_players (id : string) (body : Doc) (now : Z) : M (option Doc) :=
  player ← lift (PlayerUpdate.validate body); update_player id player now.

Definition put_teams (id : string) (body : Doc) (now : Z) : M (option Doc) :=
  team ← lift (TeamUpdate.validate body); update_team id team now.

Definition put_matches (id : string) (body : Doc) (now : Z) : M (option Doc) :=
  match_ ← lift (MatchUpdate.validate body); update_match id match_ now.

(** ** Vocabulary of the properties *)

(** The first four lines of [get], [update] and [delete]. *)
Definition resolve (c : Collection) (id : string) : M (option Doc) :=
  try_except (oid ← ObjectId_ id; find_one c (by_id oid)) (raise (invalid_id c)).

(** The unique index on [_id]: no two documents of a collection carry
    the same one. *)
Definition unique_ids (s : Db) : Prop :=
  ∀ c, NoDup (map (λ d : Doc, d !! "_id") (docs c s)).




(** ** Sample data *)

Definition id_real : string := "507f1f77bcf86cd799439011".
Definition id_test : string := "507f1f77bcf86cd799439012".
Definition id_none : string := "507f1f77bcf86cd799439013".

(** A record put in the store directly: no [is_test]. *)
Definition real_player : Doc :=
  <["_id" := VOid (OID id_real)]> (
  <["name" := VStr "Real"]> (
  <["age" := VInt 25]> ∅)).

(** A record as [create_player] leaves it. *)
Definition test_player : Doc :=
  <["_id" := VOid (OID id_test)]> (
  <["name" := VStr "Alice"]> (
  <["position" := VNull]> (
  <["team_id" := VNull]> (
  <["age" := VInt 22]> (
  <["nationality" := VNull]> (
  <["is_test" := VBool true]> (
  <["created_at" := VDate 5]> ∅))))))).

Definition sample : Db := mkDb [real_player; test_player] [] [].

(** The record is test data: its stored [is_test] is [true]. *)
Definition is_test_data (d : Doc) : bool :=
  bool_decide (d !! "is_test" = Some (VBool true)).

(** The key of a collection in the report of the cleanup. *)
Definition plural (c : Collection) : string :=
  match c with
  | Players => "players"
  | Teams => "teams"
  | Matches => "matches"
  end.

(** No record of the collection carries the identifier yet. *)
Definition unused (c : Collection) (s : Db) (fresh : ObjectId) : Prop :=
  ∀ e : Doc, e ∈ docs c s → e !! "_id" ≠ Some (VOid fresh).


(** A body every creation model accepts; it also asks for
    [is_test = false]. *)
Definition any_body : Doc :=
  <["name" := VStr "Alice"]> (
  <["home_team_id" := VStr "A"]> (
  <["away_team_id" := VStr "B"]> (
  <["is_test" := VBool false]> ∅))).

(** A match body without its teams. *)
Definition teamless_body : Doc :=
  <["stadium" := VStr "Wembley"]> ∅.




(** The request leaves the field [k] out. *)
Definition omits (dump : Doc) (k : string) : Prop :=
  dump !! k = None ∨ dump !! k = Some VNull.


(** The record [d] with its identifier as text, as the handlers
    answer it. *)
Definition as_answer (oid : ObjectId) (d : Doc) : Doc :=
  <["_id" := VStr (str_oid oid)]> d.


Definition age_update : PlayerUpdate.t :=
  PlayerUpdate.Build None None None (Some 23) None.














(** An empty filter value read as no value. *)
Definition blank (p : option string) : option string :=
  match p with
  | Some "" => None
  | _ => p
  end.











#[global] Instance Collection_eq_dec : EqDecision Collection.
Proof. solve_decision. Defined.

(** The record is behind the guard: its [is_test] is not true for
    Python, so update and delete refuse it. *)
Definition guarded (d : Doc) : bool := negb (truthy (d !! "is_test")).







Definition zed : PlayerCreate.t := PlayerCreate.Build "Zed" None None None None.

(** * Properties *)

(** ** Queries by identifier and by the test flag *)

Lemma by_id_supported oid : query_supported (by_id oid) = true.
Proof.
  unfold query_supported, by_id. apply bool_decide_eq_true.
  apply map_Forall_singleton. reflexivity.
Qed.

Lemma qmatch_by_id oid (d : Doc) :
  qmatch (by_id oid) d = bool_decide (d !! "_id" = Some (VOid oid)).
Proof.
  unfold qmatch, by_id. apply bool_decide_ext.
  rewrite map_Forall_singleton. simpl. unfold eq_match.
  rewrite orb_false_r. apply bool_decide_eq_true.
Qed.

Lemma qmatch_test_data (d : Doc) :
  qmatch test_data d = bool_decide (d !! "is_test" = Some (VBool true)).
Proof.
  unfold qmatch, test_data. apply bool_decide_ext.
  rewrite map_Forall_singleton. simpl. unfold eq_match.
  rewrite orb_false_r. apply bool_decide_eq_true.
Qed.

(** ** The store's invariant and the lookup by identifier *)

Ltac run :=
  unfold resolve, mbind, M_bind, mret, M_ret, raise, lift, try_except, ObjectId_,
    find_one, update_one_set, delete_one; simpl.

Lemma resolve_invalid c id s :
  ObjectId_of id = None → resolve c id s = (Raised (invalid_id c), s).
Proof. intros H. run. rewrite H. reflexivity. Qed.

Lemma resolve_valid c id oid s :
  ObjectId_of id = Some oid →
  resolve c id s = (Ok (head (cursor c (by_id oid) s)), s).
Proof. intros H. run. rewrite H. simpl. rewrite by_id_supported. reflexivity. Qed.

Lemma head_filter_unique {A K} (key : A → K) (p : A → bool) (l : list A) (x : A) :
  NoDup (map key l) → x ∈ l → p x = true →
  (∀ y, y ∈ l → p y = true → key y = key x) →
  head (List.filter p l) = Some x.
Proof.
  induction l as [|a l IH]; intros Hnd Hin Hp Hkey.
  - by apply elem_of_nil in Hin.
  - simpl in Hnd. apply NoDup_cons in Hnd as [Hna Hnd]. simpl.
    apply elem_of_cons in Hin as [->|Hin].
    + by rewrite Hp.
    + destruct (p a) eqn:Hpa.
      * exfalso. apply Hna. rewrite (Hkey a); [|left|done].
        apply list_elem_of_fmap. eauto.
      * apply IH; auto. intros y Hy. apply Hkey. by right.
Qed.

Lemma head_filter_none {A} (p : A → bool) (l : list A) :
  (∀ y, y ∈ l → p y = false) → head (List.filter p l) = None.
Proof.
  induction l as [|a l IH]; intros H; [done|]. simpl.
  rewrite (H a) by left. apply IH. intros y Hy. apply H. by right.
Qed.

Lemma head_filter_some {A} (p : A → bool) (l : list A) (x : A) :
  head (List.filter p l) = Some x → x ∈ l ∧ p x = true.
Proof.
  induction l as [|a l IH]; [done|]. simpl.
  destruct (p a) eqn:Hpa; simpl.
  - intros [= ->]. split; [left|done].
  - intros H. destruct (IH H). split; [by right|done].
Qed.

Lemma lookup_by_id c s (d : Doc) oid :
  unique_ids s → d ∈ docs c s → d !! "_id" = Some (VOid oid) →
  head (cursor c (by_id oid) s) = Some d.
Proof.
  intros Hu Hin Hid. unfold cursor.
  apply (head_filter_unique (λ d : Doc, d !! "_id")); auto.
  - rewrite qmatch_by_id. by apply bool_decide_eq_true.
  - intros y _. rewrite qmatch_by_id. intros Hy%bool_decide_eq_true. congruence.
Qed.




(** ** The guard *)

Lemma update_doc_unfold c id dump now s :
  update_doc c id dump now s =
  match resolve c id s with
  | (Ok existing, s') =>
      if negb (found existing) then (Raised (not_found c), s')
      else if negb (truthy (existing ≫= (.!! "is_test"))) then (Raised cannot_modify, s')
      else
        (let update_data : Doc := filter (λ kv, kv.2 ≠ VNull) dump in
         _ ← (if bool_decide (update_data ≠ ∅) then
                let update_data := <["updated_at" := VDate now]> update_data in
                oid ← ObjectId_ id;
                update_one_set c (by_id oid) update_data
              else mret ());
         oid ← ObjectId_ id;
         updated ← find_one c (by_id oid);
         lift (serialize_doc updated)) s'
  | (Raised e, s') => (Raised e, s')
  end.
Proof.
  unfold update_doc at 1. fold (resolve c id).
  unfold mbind at 1, M_bind at 1.
  destruct (resolve c id s) as [[existing|e] s']; [|done].
  destruct (negb (found existing)); [done|].
  destruct (negb (truthy _)); done.
Qed.

Lemma delete_doc_unfold c id s :
  delete_doc c id s =
  match resolve c id s with
  | (Ok existing, s') =>
      if negb (found existing) then (Raised (not_found c), s')
      else if negb (truthy (existing ≫= (.!! "is_test"))) then (Raised cannot_delete, s')
      else
        (oid ← ObjectId_ id;
         _ ← delete_one c (by_id oid);
         mret ({["message" := VStr (Noun c ++ " deleted successfully")]} : Doc)) s'
  | (Raised e, s') => (Raised e, s')
  end.
Proof.
  unfold delete_doc at 1. fold (resolve c id).
  unfold mbind at 1, M_bind at 1.
  destruct (resolve c id s) as [[existing|e] s']; [|done].
  destruct (negb (found existing)); [done|].
  destruct (negb (truthy _)); done.
Qed.

Lemma get_doc_unfold c id s :
  get_doc c id s =
  match resolve c id s with
  | (Ok doc, s') =>
      if negb (found doc) then (Raised (not_found c), s')
      else (serialize_doc doc, s')
  | (Raised e, s') => (Raised e, s')
  end.
Proof.
  unfold get_doc at 1. fold (resolve c id).
  unfold mbind at 1, M_bind at 1.
  destruct (resolve c id s) as [[existing|e] s']; [|done].
  destruct (negb (found existing)); done.
Qed.


Lemma sample_unique : unique_ids sample.
Proof.
  intros c. destruct c; simpl; try apply NoDup_nil_2.
  apply (bool_decide_unpack _). by vm_compute.
Qed.




(** ** Identifier errors *)

Lemma docs_with_docs c l s : docs c (with_docs c l s) = l.
Proof. by destruct c. Qed.

Lemma docs_with_docs_ne c c' l s : c ≠ c' → docs c' (with_docs c l s) = docs c' s.
Proof. by destruct c, c'. Qed.

Lemma with_docs_same c s : with_docs c (docs c s) s = s.
Proof. by destruct c, s. Qed.

(** No record of the collection carries the identifier. *)
Lemma lookup_absent c s oid :
  (∀ d : Doc, d ∈ docs c s → d !! "_id" ≠ Some (VOid oid)) →
  head (cursor c (by_id oid) s) = None.
Proof.
  intros H. apply head_filter_none. intros d Hd.
  rewrite qmatch_by_id. apply bool_decide_eq_false. by apply H.
Qed.

Lemma delete_first_unique {K} (key : Doc → K) (p : Doc → bool) (k : K) (l : list Doc) :
  NoDup (map key l) → (∀ y, p y = true ↔ key y = k) →
  is_Some (head (List.filter p l)) →
  ∀ y, y ∈ delete_first p l → p y = false.
Proof.
  induction l as [|a l IH]; intros Hnd Hp Hsome y Hy; simpl in *.
  - by destruct Hsome.
  - apply NoDup_cons in Hnd as [Hna Hnd].
    destruct (p a) eqn:Hpa.
    + apply not_true_is_false. intros Hpy. apply Hna.
      apply Hp in Hpa. apply Hp in Hpy. rewrite Hpa, <- Hpy.
      apply list_elem_of_fmap. eauto.
    + apply elem_of_cons in Hy as [->|Hy]; [done|]. by apply IH.
Qed.

Lemma delete_doc_done c id s r s' :
  delete_doc c id s = (Ok r, s') →
  ∃ oid, ObjectId_of id = Some oid
    ∧ is_Some (head (cursor c (by_id oid) s))
    ∧ s' = with_docs c (delete_first (qmatch (by_id oid)) (docs c s)) s.
Proof.
  rewrite delete_doc_unfold.
  destruct (ObjectId_of id) as [oid|] eqn:Hoid.
  - rewrite (resolve_valid _ _ oid) by done.
    destruct (head (cursor c (by_id oid) s)) as [d|] eqn:Hd; [|done].
    destruct (negb (found (Some d))); [done|].
    destruct (negb (truthy _)); [done|].
    run. rewrite Hoid. simpl. rewrite by_id_supported.
    intros [= <- <-]. exists oid. eauto.
  - by rewrite resolve_invalid.
Qed.

Lemma not_found_after_delete c id s r s' :
  unique_ids s → delete_doc c id s = (Ok r, s') →
  resolve c id s' = (Ok None, s').
Proof.
  intros Hu (oid & Hoid & Hsome & ->)%delete_doc_done.
  rewrite (resolve_valid _ _ oid) by done. f_equal. f_equal.
  apply lookup_absent. intros d Hd Hid. rewrite docs_with_docs in Hd.
  eapply (delete_first_unique (λ d : Doc, d !! "_id") _ (Some (VOid oid))) in Hd.
  - rewrite qmatch_by_id in Hd. by apply bool_decide_eq_false in Hd.
  - apply Hu.
  - intros y. rewrite qmatch_by_id. apply bool_decide_eq_true.
  - done.
Qed.



(** ** Cleanup *)

Lemma cursor_test_data c s :
  cursor c test_data s = List.filter is_test_data (docs c s).
Proof. apply List.filter_ext. intros d. apply qmatch_test_data. Qed.

Lemma keep_not_test_data l :
  List.filter (λ d, negb (qmatch test_data d)) l
  = List.filter (λ d, negb (is_test_data d)) l.
Proof. apply List.filter_ext. intros d. by rewrite qmatch_test_data. Qed.

Lemma test_data_supported : query_supported test_data = true.
Proof. reflexivity. Qed.

Lemma delete_many_test_data c s :
  delete_many c test_data s
  = (Ok (Z.of_nat (length (List.filter is_test_data (docs c s)))),
     with_docs c (List.filter (λ d, negb (is_test_data d)) (docs c s)) s).
Proof.
  unfold delete_many.
  by rewrite test_data_supported, keep_not_test_data, cursor_test_data.
Qed.

Lemma cleanup_run s :
  cleanup_test_data s
  = (Ok (mkCleanup "Test data cleaned up"
           (<["players" := Z.of_nat (length (List.filter is_test_data (players s)))]> (
            <["teams" := Z.of_nat (length (List.filter is_test_data (teams s)))]> (
            <["matches" := Z.of_nat (length (List.filter is_test_data (matches s)))]> ∅)))),
     mkDb (List.filter (λ d, negb (is_test_data d)) (players s))
          (List.filter (λ d, negb (is_test_data d)) (teams s))
          (List.filter (λ d, negb (is_test_data d)) (matches s))).
Proof.
  unfold cleanup_test_data, mbind, M_bind, mret, M_ret.
  by rewrite !delete_many_test_data.
Qed.

(** C4. The cleanup succeeds on every database; in each collection it
    keeps, in order, exactly the records whose [is_test] is not [true]
    and reports under the collection's name how many it removed, which
    is the number of records whose [is_test] is [true]. *)
Theorem cleanup_scope s :
  ∃ report s',
    cleanup_test_data s = (Ok report, s')
    ∧ message report = "Test data cleaned up"
    ∧ dom (deleted report) = {["players"; "teams"; "matches"]}
    ∧ ∀ c,
        docs c s' = List.filter (λ d, negb (is_test_data d)) (docs c s)
        ∧ deleted report !! plural c
          = Some (Z.of_nat (length (List.filter is_test_data (docs c s)))).
Proof.
  eexists _, _. split; [apply cleanup_run|]. split; [reflexivity|].
  split.
  { simpl. rewrite !dom_insert_L, dom_empty_L. set_solver. }
  intros c. split.
  - by destruct c.
  - by destruct c; simpl; simplify_map_eq.
Qed.

(** P8 on the sample: one test player and one real player. *)
Example cleanup_sample :
  cleanup_test_data sample
  = (Ok (mkCleanup "Test data cleaned up"
           (<["players" := 1]> (<["teams" := 0]> (<["matches" := 0]> ∅)))),
     mkDb [real_player] [] []).
Proof. by vm_compute. Qed.

(** ** Creation *)

Lemma no_duplicate c s fresh :
  unused c s fresh →
  existsb (λ e : Doc, bool_decide (e !! "_id" = Some (VOid fresh))) (docs c s) = false.
Proof.
  intros H. apply not_true_is_false. intros (e & He & Hid)%existsb_exists.
  apply bool_decide_eq_true in Hid. by apply (H e); [apply list_elem_of_In|].
Qed.

Lemma create_doc_succeeds c (dump : Doc) fresh now s :
  dump !! "_id" = None → unused c s fresh →
  ∃ r s', create_doc c dump fresh now s = (Ok r, s').
Proof.
  intros Hid Hun. unfold create_doc, insert_one, mbind, M_bind.
  rewrite !lookup_insert_ne, Hid by done. simpl.
  rewrite no_duplicate by done. simpl. eauto.
Qed.


Lemma PlayerCreate_no_id m : PlayerCreate.model_dump m !! "_id" = None.
Proof. done. Qed.

Lemma TeamCreate_no_id m : TeamCreate.model_dump m !! "_id" = None.
Proof. done. Qed.

Lemma MatchCreate_no_id m : MatchCreate.model_dump m !! "_id" = None.
Proof. done. Qed.

Lemma lift_bind {A B} (o : outcome A) (k : A → M B) s :
  (a ← lift o; k a) s =
  match o with
  | Ok a => k a s
  | Raised e => (Raised e, s)
  end.
Proof. by destruct o. Qed.


Lemma sample_unused c : unused c sample (OID id_none).
Proof.
  intros e He. destruct c; simpl in He.
  - apply elem_of_cons in He as [->|He]; [by vm_compute|].
    apply elem_of_cons in He as [->|He]; [by vm_compute|].
    by apply elem_of_nil in He.
  - by apply elem_of_nil in He.
  - by apply elem_of_nil in He.
Qed.


(** A body asking for [is_test = false] is stored with
    [is_test = true] all the same. *)
Example creation_ignores_is_test :
  ∃ d, snd (post_players any_body (OID id_none) 5 sample)
       = mkDb [real_player; test_player; d] [] []
       ∧ d !! "is_test" = Some (VBool true).
Proof. eexists. split; [by vm_compute|]. by vm_compute. Qed.

(** ** Match creation *)

Lemma collect_rejected_l {A B} (x : outcome A) :
  collect (B := B) (Raised RequestValidationError) x = Raised RequestValidationError.
Proof. done. Qed.

Lemma collect_rejected_r {A B} (f : outcome (A → B)) :
  collect f (Raised RequestValidationError) = Raised RequestValidationError.
Proof. by destruct f as [|[]]. Qed.

Lemma required_str_missing (body : Doc) k :
  body !! k = None → required_str body k = Raised RequestValidationError.
Proof. unfold required_str. by intros ->. Qed.





(** ** Authorized updates *)

Lemma head_filter_split {A} (p : A → bool) (l : list A) (x : A) :
  head (List.filter p l) = Some x →
  ∃ l1 l2, l = (l1 ++ x :: l2)%list ∧ (∀ y, y ∈ l1 → p y = false) ∧ p x = true.
Proof.
  induction l as [|a l IH]; [done|]. simpl.
  destruct (p a) eqn:Hpa; simpl.
  - intros [= ->]. exists [], l. split; [done|]. split; [|done].
    intros y Hy. by apply elem_of_nil in Hy.
  - intros (l1 & l2 & -> & H1 & Hx)%IH. exists (a :: l1), l2.
    split; [done|]. split; [|done].
    intros y [->|Hy]%elem_of_cons; auto.
Qed.

Lemma update_first_split (p : Doc → bool) (f : Doc → Doc) l1 (x : Doc) l2 :
  (∀ y, y ∈ l1 → p y = false) → p x = true →
  update_first p f (l1 ++ x :: l2) = (l1 ++ f x :: l2)%list.
Proof.
  induction l1 as [|a l1 IH]; intros H1 Hx; simpl.
  - by rewrite Hx.
  - rewrite (H1 a) by left. f_equal. apply IH; [|done].
    intros y Hy. apply H1. by right.
Qed.

Lemma head_filter_app {A} (p : A → bool) l1 (x : A) l2 :
  (∀ y, y ∈ l1 → p y = false) → p x = true →
  head (List.filter p (l1 ++ x :: l2)) = Some x.
Proof.
  induction l1 as [|a l1 IH]; intros H1 Hx; simpl.
  - by rewrite Hx.
  - rewrite (H1 a) by left. apply IH; [|done].
    intros y Hy. apply H1. by right.
Qed.

Lemma found_of_id (d : Doc) v : d !! "_id" = Some v → found (Some d) = true.
Proof.
  intros Hid. simpl. apply bool_decide_eq_true. intros E.
  rewrite E, lookup_empty in Hid. discriminate.
Qed.

Lemma serialize_stored (d : Doc) oid :
  d !! "_id" = Some (VOid oid) →
  serialize_doc (Some d) = Ok (Some (as_answer oid d)).
Proof.
  intros Hid. unfold serialize_doc.
  rewrite (found_of_id d _ Hid).
  simpl. by rewrite Hid.
Qed.

Lemma update_doc_nothing c s id oid (d dump : Doc) now :
  ObjectId_of id = Some oid →
  head (cursor c (by_id oid) s) = Some d →
  truthy (d !! "is_test") = true →
  filter (λ kv : string * value, kv.2 ≠ VNull) dump = ∅ →
  update_doc c id dump now s = (Ok (Some (as_answer oid d)), s).
Proof.
  intros Hoid Hd Ht He.
  destruct (head_filter_some _ _ _ Hd) as [_ Hm].
  rewrite qmatch_by_id in Hm. apply bool_decide_eq_true in Hm.
  rewrite update_doc_unfold, (resolve_valid _ _ oid), Hd by done.
  rewrite (found_of_id d _ Hm).
  simpl. rewrite Ht. simpl. rewrite He.
  rewrite bool_decide_eq_false_2 by (by intros H; apply H).
  run. rewrite Hoid. simpl. rewrite by_id_supported, Hd.
  by rewrite (serialize_stored d oid).
Qed.

Lemma update_doc_merge c s id oid (d dump : Doc) now :
  ObjectId_of id = Some oid →
  head (cursor c (by_id oid) s) = Some d →
  truthy (d !! "is_test") = true →
  dump !! "_id" = None →
  let fields : Doc := <["updated_at" := VDate now]> (filter (λ kv, kv.2 ≠ VNull) dump) in
  filter (λ kv : string * value, kv.2 ≠ VNull) dump ≠ ∅ →
  ∃ l1 l2,
    docs c s = (l1 ++ d :: l2)%list
    ∧ update_doc c id dump now s
      = (Ok (Some (as_answer oid (fields ∪ d))),
         with_docs c (l1 ++ (fields ∪ d) :: l2) s).
Proof.
  intros Hoid Hd Ht Hnoid fields Hne.
  destruct (head_filter_split _ _ _ Hd) as (l1 & l2 & Hl & Hl1 & Hm).
  assert (Hid : d !! "_id" = Some (VOid oid)).
  { rewrite qmatch_by_id in Hm. by apply bool_decide_eq_true in Hm. }
  assert (Hid' : (fields ∪ d) !! "_id" = Some (VOid oid)).
  { rewrite lookup_union_r; [done|]. unfold fields.
    rewrite lookup_insert_ne by done.
    apply map_lookup_filter_None. by left. }
  exists l1, l2. split; [exact Hl|].
  rewrite update_doc_unfold, (resolve_valid _ _ oid), Hd by done.
  rewrite (found_of_id d _ Hid).
  simpl. rewrite Ht. simpl.
  rewrite bool_decide_eq_true_2 by done.
  run. rewrite Hoid. simpl. rewrite by_id_supported.
  unfold cursor. rewrite docs_with_docs, Hl.
  rewrite update_first_split by done.
  rewrite head_filter_app; [|done|].
  - by rewrite (serialize_stored _ oid).
  - rewrite qmatch_by_id. by apply bool_decide_eq_true.
Qed.








(** The update of the scenario on the sample: the age is overwritten,
    [updated_at] is set, the name stays. *)
Example update_sample :
  ∃ d', snd (update_player id_test age_update 9 sample)
        = mkDb [real_player; d'] [] []
        ∧ d' !! "age" = Some (VInt 23) ∧ d' !! "updated_at" = Some (VDate 9)
        ∧ d' !! "name" = Some (VStr "Alice").
Proof. eexists. split; [by vm_compute|]. by vm_compute. Qed.

(** ** The queries, entry by entry *)



Section Steps.
Context (F : string → qvalue → bool) (k : string) (q : Query).
Hypothesis fresh : q !! k = None.



End Steps.

Section Fresh.
Context (k k' : string) (q : Query).
Hypothesis ne : k ≠ k'.
Hypothesis fresh : q !! k = None.

Lemma fresh_if (b : bool) c : (if b then <[k' := c]> q else q) !! k = None.
Proof. destruct b; [by rewrite lookup_insert_ne|done]. Qed.

Lemma fresh_match {A} (o : option A) (f : A → qvalue) :
  match o with Some a => <[k' := f a]> q | None => q end !! k = None.
Proof. destruct o; [by rewrite lookup_insert_ne|done]. Qed.

End Fresh.





(** ** Plain patterns *)







(** ** The list handlers *)



Lemma filter_sub {A} (p : A → bool) (l : list A) (x : A) :
  x ∈ List.filter p l ↔ x ∈ l ∧ p x = true.
Proof. rewrite !list_elem_of_In. apply filter_In. Qed.





(** ** One filter at a time *)






Section OneFilter.
Context (F : string → qvalue → bool) (v : string).
Hypothesis Hv : v ≠ "".










End OneFilter.



(** ** What one entry asks of a record *)







Section Bounds.
Context (d : Doc) (k : string) (a b : Z).






End Bounds.


(** ** Text filters *)










(** ** Range filters *)




(** ** Team filters of the matches *)






(** ** Empty filter values *)

(** C10. In the three list handlers an empty text or identifier filter
    is the filter left out: each handler is the same computation on its
    parameters and on its parameters with every empty value dropped,
    and [blank] drops exactly the empty value. *)
Theorem empty_filter_is_absent :
  blank (Some "") = None
  ∧ (∀ name position team_id nationality min_age max_age is_test limit skip,
       get_players name position team_id nationality min_age max_age is_test limit skip
       = get_players (blank name) (blank position) (blank team_id) (blank nationality)
           min_age max_age is_test limit skip)
  ∧ (∀ name country league is_test limit skip,
       get_teams name country league is_test limit skip
       = get_teams (blank name) (blank country) (blank league) is_test limit skip)
  ∧ (∀ home_team_id away_team_id team_id stadium date_from date_to is_test limit skip,
       get_matches home_team_id away_team_id team_id stadium date_from date_to is_test limit skip
       = get_matches (blank home_team_id) (blank away_team_id) (blank team_id)
           (blank stadium) date_from date_to is_test limit skip).
Proof.
  split; [reflexivity|]. split; [|split].
  - intros [[|? ?]|] [[|? ?]|] [[|? ?]|] [[|? ?]|]; reflexivity.
  - intros [[|? ?]|] [[|? ?]|] [[|? ?]|]; reflexivity.
  - intros [[|? ?]|] [[|? ?]|] [[|? ?]|] [[|? ?]|]; reflexivity.
Qed.

(** An empty name on the sample answers what no name answers. *)
Example empty_name_sample :
  get_players (Some "") None None None None None None None None sample
  = get_players None None None None None None None None None sample.
Proof. reflexivity. Qed.

(** * Further properties of the handlers *)

(** ** The [is_test] and [team_id] filters *)













(** ** Pages *)




(** ** Reading one record *)

(** X5. Get by a well-formed identifier that a stored record carries
    answers that record with its [_id] as the identifier's text and
    every other field as stored, and leaves the database as it was. *)
Theorem get_returns_record c s id oid d :
  unique_ids s → ObjectId_of id = Some oid →
  d ∈ docs c s → d !! "_id" = Some (VOid oid) →
  ∃ answer : Doc,
    get_doc c id s = (Ok (Some answer), s)
    ∧ answer !! "_id" = Some (VStr (str_oid oid))
    ∧ ∀ k, k ≠ "_id" → answer !! k = d !! k.
Proof.
  intros Hu Hoid Hin Hid. exists (as_answer oid d). split; [|split].
  - rewrite get_doc_unfold, (resolve_valid _ _ oid) by done.
    rewrite (lookup_by_id c s d oid) by done.
    rewrite (found_of_id d _ Hid). simpl.
    by rewrite (serialize_stored d oid).
  - apply lookup_insert_eq.
  - intros k Hk. unfold as_answer. by rewrite lookup_insert_ne.
Qed.

Lemma get_returns_record_witness :
  unique_ids sample ∧ ObjectId_of id_real = Some (OID id_real)
  ∧ real_player ∈ docs Players sample
  ∧ real_player !! "_id" = Some (VOid (OID id_real))
  ∧ ∃ answer : Doc,
      get_player id_real sample = (Ok (Some answer), sample)
      ∧ answer !! "_id" = Some (VStr id_real)
      ∧ ∀ k, k ≠ "_id" → answer !! k = real_player !! k.
Proof.
  assert (Hin : real_player ∈ docs Players sample) by left.
  split; [exact sample_unique|]. split; [reflexivity|]. split; [exact Hin|].
  split; [reflexivity|].
  exact (get_returns_record Players sample id_real (OID id_real) real_player
           sample_unique eq_refl Hin eq_refl).
Defined.

(** ** What a write does to the database *)

Lemma delete_first_split (p : Doc → bool) l1 (x : Doc) l2 :
  (∀ y, y ∈ l1 → p y = false) → p x = true →
  delete_first p (l1 ++ x :: l2) = (l1 ++ l2)%list.
Proof.
  induction l1 as [|a l1 IH]; intros H1 Hx; simpl.
  - by rewrite Hx.
  - rewrite (H1 a) by left. f_equal. apply IH; [|done].
    intros y Hy. apply H1. by right.
Qed.

Lemma resolve_cases c id s :
  resolve c id s = (Raised (invalid_id c), s)
  ∨ ∃ oid, ObjectId_of id = Some oid
      ∧ resolve c id s = (Ok (head (cursor c (by_id oid) s)), s).
Proof.
  destruct (ObjectId_of id) as [oid|] eqn:Hoid.
  - right. exists oid. split; [done|]. by apply resolve_valid.
  - left. by apply resolve_invalid.
Qed.

(** A delete either raises and leaves the database, or removes the
    first record that carries the identifier, which passes the guard. *)
Lemma delete_doc_cases c id s :
  (∃ e, delete_doc c id s = (Raised e, s))
  ∨ ∃ oid d l1 l2,
      ObjectId_of id = Some oid
      ∧ docs c s = (l1 ++ d :: l2)%list
      ∧ (∀ y, y ∈ l1 → qmatch (by_id oid) y = false)
      ∧ d !! "_id" = Some (VOid oid)
      ∧ truthy (d !! "is_test") = true
      ∧ delete_doc c id s
        = (Ok {["message" := VStr (Noun c ++ " deleted successfully")]},
           with_docs c (l1 ++ l2) s).
Proof.
  rewrite delete_doc_unfold.
  destruct (resolve_cases c id s) as [->|(oid & Hoid & ->)]; [left; eauto|].
  destruct (head (cursor c (by_id oid) s)) as [d|] eqn:Hd; [|left; eauto].
  destruct (head_filter_split _ _ _ Hd) as (l1 & l2 & Hl & Hl1 & Hm).
  assert (Hid : d !! "_id" = Some (VOid oid)).
  { rewrite qmatch_by_id in Hm. by apply bool_decide_eq_true in Hm. }
  rewrite (found_of_id d _ Hid). simpl.
  destruct (truthy (d !! "is_test")) eqn:Ht; simpl; [|left; eauto].
  right. exists oid, d, l1, l2. repeat (split; [done|]).
  run. rewrite Hoid. simpl. rewrite by_id_supported.
  by rewrite Hl, delete_first_split.
Qed.

(** An update either raises and leaves the database, or finds nothing
    to write and leaves it, or replaces the first record that carries
    the identifier, which passes the guard, by its merge. *)
Lemma update_doc_cases c id (dump : Doc) now s :
  dump !! "_id" = None →
  (∃ e, update_doc c id dump now s = (Raised e, s))
  ∨ ∃ oid d,
      ObjectId_of id = Some oid
      ∧ head (cursor c (by_id oid) s) = Some d
      ∧ d !! "_id" = Some (VOid oid)
      ∧ truthy (d !! "is_test") = true
      ∧ (update_doc c id dump now s = (Ok (Some (as_answer oid d)), s)
         ∨ ∃ l1 l2,
             docs c s = (l1 ++ d :: l2)%list
             ∧ (∀ y, y ∈ l1 → qmatch (by_id oid) y = false)
             ∧ update_doc c id dump now s
               = (Ok (Some (as_answer oid
                        (<["updated_at" := VDate now]>
                           (filter (λ kv : string * value, kv.2 ≠ VNull) dump) ∪ d))),
                  with_docs c
                    (l1 ++ (<["updated_at" := VDate now]>
                              (filter (λ kv : string * value, kv.2 ≠ VNull) dump) ∪ d)
                        :: l2) s)).
Proof.
  intros Hno.
  destruct (resolve_cases c id s) as [Hr|(oid & Hoid & Hr)].
  { left. rewrite update_doc_unfold, Hr. eauto. }
  destruct (head (cursor c (by_id oid) s)) as [d|] eqn:Hd.
  2:{ left. rewrite update_doc_unfold, Hr. simpl. eauto. }
  destruct (head_filter_split _ _ _ Hd) as (l1 & l2 & Hl & Hl1 & Hm).
  assert (Hid : d !! "_id" = Some (VOid oid)).
  { rewrite qmatch_by_id in Hm. by apply bool_decide_eq_true in Hm. }
  destruct (truthy (d !! "is_test")) eqn:Ht.
  2:{ left. rewrite update_doc_unfold, Hr, (found_of_id d _ Hid). simpl.
      rewrite Ht. simpl. eauto. }
  right. exists oid, d. repeat (split; [done|]).
  destruct (decide (filter (λ kv : string * value, kv.2 ≠ VNull) dump = ∅)) as [He|Hne].
  - left. by apply update_doc_nothing.
  - right. destruct (update_doc_merge c s id oid d dump now Hoid Hd Ht Hno Hne)
      as (l1' & l2' & Hl' & Hrun).
    exists l1, l2. split; [done|]. split; [done|].
    rewrite update_doc_unfold, Hr, (found_of_id d _ Hid). simpl. rewrite Ht. simpl.
    rewrite bool_decide_eq_true_2 by done.
    run. rewrite Hoid. simpl. rewrite by_id_supported.
    unfold cursor. rewrite docs_with_docs, Hl.
    rewrite update_first_split by done.
    assert (Hid' : (<["updated_at" := VDate now]>
                      (filter (λ kv : string * value, kv.2 ≠ VNull) dump) ∪ d) !! "_id"
                   = Some (VOid oid)).
    { rewrite lookup_union_r; [done|]. rewrite lookup_insert_ne by done.
      apply map_lookup_filter_None. by left. }
    rewrite head_filter_app; [|done|].
    + by rewrite (serialize_stored _ oid).
    + rewrite qmatch_by_id. by apply bool_decide_eq_true.
Qed.

(** X6. A delete by a well-formed identifier of a stored record whose
    [is_test] is true answers the confirmation, removes that record and
    no other, keeping the order of the rest, and a get by the same
    identifier then answers 404. *)
Theorem authorized_delete c s id oid d :
  unique_ids s → ObjectId_of id = Some oid →
  d ∈ docs c s → d !! "_id" = Some (VOid oid) →
  truthy (d !! "is_test") = true →
  ∃ l1 l2 s',
    docs c s = (l1 ++ d :: l2)%list
    ∧ s' = with_docs c (l1 ++ l2) s
    ∧ delete_doc c id s
      = (Ok {["message" := VStr (Noun c ++ " deleted successfully")]}, s')
    ∧ get_doc c id s' = (Raised (HTTPException 404 (Noun c ++ " not found")), s').
Proof.
  intros Hu Hoid Hin Hid Ht.
  pose proof (lookup_by_id c s d oid Hu Hin Hid) as Hd.
  destruct (delete_doc_cases c id s)
    as [[e He]|(oid' & d' & l1 & l2 & Hoid' & Hl & Hl1 & Hid' & Ht' & Hrun)].
  - exfalso. rewrite delete_doc_unfold, (resolve_valid _ _ oid), Hd in He by done.
    rewrite (found_of_id d _ Hid) in He. simpl in He. rewrite Ht in He.
    simpl in He. revert He. run. rewrite Hoid. simpl.
    by rewrite by_id_supported.
  - assert (oid' = oid) as -> by congruence.
    assert (d' = d) as ->.
    { unfold cursor in Hd. rewrite Hl in Hd.
      rewrite head_filter_app in Hd; [congruence|done|].
      rewrite qmatch_by_id. by apply bool_decide_eq_true. }
    exists l1, l2, (with_docs c (l1 ++ l2) s).
    split; [done|]. split; [done|]. split; [done|].
    rewrite get_doc_unfold.
    by rewrite (not_found_after_delete c id s _ _ Hu Hrun).
Qed.

Lemma authorized_delete_witness :
  unique_ids sample ∧ ObjectId_of id_test = Some (OID id_test)
  ∧ test_player ∈ docs Players sample
  ∧ test_player !! "_id" = Some (VOid (OID id_test))
  ∧ truthy (test_player !! "is_test") = true
  ∧ ∃ l1 l2 s',
      docs Players sample = (l1 ++ test_player :: l2)%list
      ∧ s' = with_docs Players (l1 ++ l2) sample
      ∧ delete_player id_test sample
        = (Ok {["message" := VStr "Player deleted successfully"]}, s')
      ∧ get_player id_test s' = (Raised (HTTPException 404 "Player not found"), s').
Proof.
  assert (Hin : test_player ∈ docs Players sample) by (right; left).
  split; [exact sample_unique|]. split; [reflexivity|]. split; [exact Hin|].
  split; [reflexivity|]. split; [reflexivity|].
  exact (authorized_delete Players sample id_test (OID id_test) test_player
           sample_unique eq_refl Hin eq_refl eq_refl).
Defined.

(** ** Requests that fail, requests that read *)

Lemma create_doc_cases c (dump : Doc) fresh now s :
  dump !! "_id" = None →
  create_doc c dump fresh now s = (Raised DuplicateKeyError, s)
  ∨ ∃ d : Doc,
      d = <["_id" := VOid fresh]>
            (<["created_at" := VDate now]> (<["is_test" := VBool true]> dump))
      ∧ unused c s fresh
      ∧ create_doc c dump fresh now s
        = (Ok (as_answer fresh d), with_docs c (docs c s ++ [d]) s).
Proof.
  intros Hid. unfold create_doc, insert_one, mbind, M_bind.
  rewrite !lookup_insert_ne, Hid by done. simpl.
  destruct (existsb _ _) eqn:E; [by left|]. right.
  eexists. split; [reflexivity|]. split.
  - intros e He Heid. apply not_true_iff_false in E. apply E.
    apply existsb_exists. exists e. split; [by apply list_elem_of_In|].
    by apply bool_decide_eq_true.
  - simpl. unfold as_answer. by rewrite insert_insert_eq.
Qed.

(** X13. Reads never write and failures never write: get and list leave
    the database as it was whatever they answer, and a create, an
    update or a delete that raises leaves it as it was. *)
Theorem failures_write_nothing c s :
  (∀ id, snd (get_doc c id s) = s)
  ∧ (∀ q limit skip, snd (list_docs c q limit skip s) = s)
  ∧ (∀ dump fresh now e s',
       dump !! "_id" = None →
       create_doc c dump fresh now s = (Raised e, s') → s' = s)
  ∧ (∀ id dump now e s',
       dump !! "_id" = None →
       update_doc c id dump now s = (Raised e, s') → s' = s)
  ∧ (∀ id e s', delete_doc c id s = (Raised e, s') → s' = s).
Proof.
  repeat match goal with |- _ ∧ _ => split end.
  - intros id. rewrite get_doc_unfold.
    destruct (resolve_cases c id s) as [->|(oid & _ & ->)]; [done|].
    by destruct (negb (found _)).
  - intros q limit skip. unfold list_docs. simpl.
    destruct (negb _); [done|].
    unfold mbind, M_bind, find, lift. by destruct (query_supported q).
  - intros dump fresh now e s' Hid H.
    destruct (create_doc_cases c dump fresh now s Hid) as [H'|(d & _ & _ & H')];
      congruence.
  - intros id dump now e s' Hid H.
    destruct (update_doc_cases c id dump now s Hid)
      as [[e' H']|(oid & d & _ & _ & _ & _ & [H'|(l1 & l2 & _ & _ & H')])];
      congruence.
  - intros id e s' H.
    destruct (delete_doc_cases c id s)
      as [[e' H']|(oid & d & l1 & l2 & _ & _ & _ & _ & _ & H')]; congruence.
Qed.

Lemma failures_write_nothing_witness :
  PlayerUpdate.model_dump age_update !! "_id" = None
  ∧ update_player id_real age_update 9 sample
    = (Raised cannot_modify, sample)
  ∧ sample = sample.
Proof.
  assert (Hrun : update_player id_real age_update 9 sample
                 = (Raised cannot_modify, sample)) by (vm_compute; reflexivity).
  split; [reflexivity|]. split; [exact Hrun|].
  destruct (failures_write_nothing Players sample) as (_ & _ & _ & Hup & _).
  exact (Hup id_real (PlayerUpdate.model_dump age_update) 9 cannot_modify sample
           eq_refl Hrun).
Defined.

(** ** Create, then read *)




(** ** What every write keeps *)

Lemma docs_with_docs_at c c' l s :
  docs c (with_docs c' l s) = if decide (c = c') then l else docs c s.
Proof. by destruct c, c'. Qed.

Lemma unique_with_docs c l s :
  unique_ids s → NoDup (map (λ d : Doc, d !! "_id") l) →
  unique_ids (with_docs c l s).
Proof.
  intros Hu Hl c'. rewrite docs_with_docs_at. case_decide; [done|apply Hu].
Qed.

Lemma NoDup_filter_keys {K} (key : Doc → K) (p : Doc → bool) (l : list Doc) :
  NoDup (map key l) → NoDup (map key (List.filter p l)).
Proof.
  induction l as [|a l IH]; [done|]. simpl.
  intros [Hna Hnd]%NoDup_cons. destruct (p a); simpl; [|by apply IH].
  apply NoDup_cons. split; [|by apply IH].
  intros (y & Hy & [Hin _]%filter_sub)%list_elem_of_fmap.
  apply Hna. apply list_elem_of_fmap. eauto.
Qed.

Lemma NoDup_remove_keys {K} (key : Doc → K) (l1 l2 : list Doc) (d : Doc) :
  NoDup (map key (l1 ++ d :: l2)) → NoDup (map key (l1 ++ l2)).
Proof.
  rewrite !map_app. simpl. rewrite !NoDup_app, NoDup_cons.
  intros (H1 & H12 & _ & H2). split; [done|]. split; [|done].
  intros x Hx Hx2. apply (H12 x Hx). by right.
Qed.

Lemma NoDup_replace_keys {K} (key : Doc → K) (l1 l2 : list Doc) (d d' : Doc) :
  key d' = key d →
  NoDup (map key (l1 ++ d :: l2)) → NoDup (map key (l1 ++ d' :: l2)).
Proof. intros H. rewrite !map_app. simpl. by rewrite H. Qed.

Lemma merge_keeps (dump d : Doc) now k :
  k ≠ "updated_at" → omits dump k →
  (<["updated_at" := VDate now]> (filter (λ kv : string * value, kv.2 ≠ VNull) dump) ∪ d) !! k
  = d !! k.
Proof.
  intros Hk Ho. rewrite lookup_union_r; [done|].
  rewrite lookup_insert_ne by done.
  apply map_lookup_filter_None. destruct Ho as [Ho|Ho]; [by left|].
  right. intros v Hv. rewrite Ho in Hv. injection Hv as <-. simpl. tauto.
Qed.

(** X8. The unique index holds after every write: if no two records of
    a collection carry the same [_id], then none do after a create, an
    update, a delete or the cleanup, whatever they answer. *)
Theorem unique_ids_kept s :
  unique_ids s →
  (∀ c dump fresh now,
     dump !! "_id" = None → unique_ids (snd (create_doc c dump fresh now s)))
  ∧ (∀ c id dump now,
     dump !! "_id" = None → unique_ids (snd (update_doc c id dump now s)))
  ∧ (∀ c id, unique_ids (snd (delete_doc c id s)))
  ∧ unique_ids (snd (cleanup_test_data s)).
Proof.
  intros Hu. repeat match goal with |- _ ∧ _ => split end.
  - intros c dump fresh now Hid.
    destruct (create_doc_cases c dump fresh now s Hid) as [->|(d & Hd & Hun & ->)];
      [done|]. simpl.
    apply unique_with_docs; [done|].
    rewrite map_app. simpl. apply NoDup_app. split; [apply Hu|]. split.
    + intros x (y & -> & Hy)%list_elem_of_fmap [E|E]%elem_of_cons;
        [|by apply elem_of_nil in E].
      apply (Hun y Hy). rewrite E, Hd. apply lookup_insert_eq.
    + apply NoDup_singleton.
  - intros c id dump now Hid.
    destruct (update_doc_cases c id dump now s Hid)
      as [[e ->]|(oid & d & _ & _ & Hd & _ & [->|(l1 & l2 & Hl & _ & ->)])];
      [done..|]. simpl.
    apply unique_with_docs; [done|].
    apply (NoDup_replace_keys _ l1 l2 d).
    + apply merge_keeps; [done|by left].
    + rewrite <- Hl. apply Hu.
  - intros c id.
    destruct (delete_doc_cases c id s)
      as [[e ->]|(oid & d & l1 & l2 & _ & Hl & _ & _ & _ & ->)]; [done|]. simpl.
    apply unique_with_docs; [done|].
    apply (NoDup_remove_keys _ l1 l2 d). rewrite <- Hl. apply Hu.
  - rewrite cleanup_run. simpl. intros c.
    destruct c; simpl; apply NoDup_filter_keys; apply (Hu Players) || apply (Hu Teams)
      || apply (Hu Matches).
Qed.

Lemma unique_ids_kept_witness :
  unique_ids sample
  ∧ PlayerUpdate.model_dump age_update !! "_id" = None
  ∧ unique_ids (snd (update_player id_test age_update 9 sample))
  ∧ unique_ids (snd (delete_player id_test sample))
  ∧ unique_ids (snd (cleanup_test_data sample)).
Proof.
  destruct (unique_ids_kept sample sample_unique) as (_ & Hup & Hdel & Hclean).
  split; [exact sample_unique|]. split; [reflexivity|].
  split; [|split].
  - exact (Hup Players id_test (PlayerUpdate.model_dump age_update) 9 eq_refl).
  - exact (Hdel Players id_test).
  - exact Hclean.
Defined.

Lemma guarded_not_test_data (d : Doc) : guarded d = true → is_test_data d = false.
Proof.
  unfold guarded, is_test_data. intros H. apply bool_decide_eq_false. intros E.
  by rewrite E in H.
Qed.

Lemma filter_guarded_kept (l : list Doc) :
  List.filter guarded (List.filter (λ d, negb (is_test_data d)) l)
  = List.filter guarded l.
Proof.
  induction l as [|a l IH]; [done|]. simpl.
  destruct (guarded a) eqn:Hg.
  - rewrite (guarded_not_test_data a Hg). simpl. by rewrite Hg, IH.
  - destruct (is_test_data a); simpl; by rewrite ?Hg, IH.
Qed.

(** X9. No write touches what the guard protects: in every collection
    the records whose [is_test] is not true for Python are, in number,
    order and content, the same after a create, an update, a delete or
    the cleanup as before, whichever record and collection the request
    is about. *)
Theorem guarded_records_untouched s c :
  (∀ c' dump fresh now,
     dump !! "_id" = None →
     List.filter guarded (docs c (snd (create_doc c' dump fresh now s)))
     = List.filter guarded (docs c s))
  ∧ (∀ c' id dump now,
     dump !! "_id" = None → omits dump "is_test" →
     List.filter guarded (docs c (snd (update_doc c' id dump now s)))
     = List.filter guarded (docs c s))
  ∧ (∀ c' id,
     List.filter guarded (docs c (snd (delete_doc c' id s)))
     = List.filter guarded (docs c s))
  ∧ List.filter guarded (docs c (snd (cleanup_test_data s)))
    = List.filter guarded (docs c s).
Proof.
  repeat match goal with |- _ ∧ _ => split end.
  - intros c' dump fresh now Hid.
    destruct (create_doc_cases c' dump fresh now s Hid) as [->|(d & Hd & _ & ->)];
      [done|]. simpl.
    rewrite docs_with_docs_at. case_decide as E; [subst c'|done].
    rewrite List.filter_app. simpl.
    assert (guarded d = false) as ->; [|by rewrite app_nil_r].
    unfold guarded. rewrite Hd. by simplify_map_eq.
  - intros c' id dump now Hid Ho.
    destruct (update_doc_cases c' id dump now s Hid)
      as [[e ->]|(oid & d & _ & _ & _ & Ht & [->|(l1 & l2 & Hl & _ & ->)])];
      [done..|]. simpl.
    rewrite docs_with_docs_at. case_decide as E; [subst c'|done].
    rewrite Hl, !List.filter_app. simpl.
    assert (guarded d = false) as -> by (unfold guarded; by rewrite Ht).
    assert (guarded (<["updated_at" := VDate now]>
                       (filter (λ kv : string * value, kv.2 ≠ VNull) dump) ∪ d)
            = false) as ->; [|done].
    unfold guarded. rewrite merge_keeps by done. by rewrite Ht.
  - intros c' id.
    destruct (delete_doc_cases c' id s)
      as [[e ->]|(oid & d & l1 & l2 & _ & Hl & _ & _ & Ht & ->)]; [done|]. simpl.
    rewrite docs_with_docs_at. case_decide as E; [subst c'|done].
    rewrite Hl, !List.filter_app. simpl.
    by assert (guarded d = false) as -> by (unfold guarded; by rewrite Ht).
  - rewrite cleanup_run. simpl. destruct c; simpl; apply filter_guarded_kept.
Qed.

Lemma guarded_records_untouched_witness :
  PlayerUpdate.model_dump age_update !! "_id" = None
  ∧ omits (PlayerUpdate.model_dump age_update) "is_test"
  ∧ List.filter guarded (docs Players (snd (update_player id_test age_update 9 sample)))
    = [real_player]
  ∧ List.filter guarded (docs Players (snd (cleanup_test_data sample)))
    = [real_player].
Proof.
  assert (Ho : omits (PlayerUpdate.model_dump age_update) "is_test") by (by left).
  destruct (guarded_records_untouched sample Players) as (_ & Hup & _ & Hclean).
  split; [reflexivity|]. split; [exact Ho|]. split.
  - exact (Hup Players id_test (PlayerUpdate.model_dump age_update) 9 eq_refl Ho).
  - exact Hclean.
Defined.

(** ** What a create stores *)

Lemma PlayerCreate_requires_name (body : Doc) :
  body !! "name" = None → PlayerCreate.validate body = Raised RequestValidationError.
Proof.
  intros H. unfold PlayerCreate.validate. rewrite (required_str_missing _ _ H).
  by rewrite ?collect_rejected_r, ?collect_rejected_l.
Qed.

Lemma TeamCreate_requires_name (body : Doc) :
  body !! "name" = None → TeamCreate.validate body = Raised RequestValidationError.
Proof.
  intros H. unfold TeamCreate.validate. rewrite (required_str_missing _ _ H).
  by rewrite ?collect_rejected_r, ?collect_rejected_l.
Qed.

(** X10. A player and a team need a name: a creation body without
    [name], or with a [name] that is null, a boolean or a number, is
    refused with a validation error whatever else it holds, and nothing
    is stored. *)
Theorem creation_requires_name body fresh now s :
  (body !! "name" = None ∨ body !! "name" = Some VNull
   ∨ (∃ b, body !! "name" = Some (VBool b)) ∨ (∃ n, body !! "name" = Some (VInt n))) →
  post_players body fresh now s = (Raised RequestValidationError, s)
  ∧ post_teams body fresh now s = (Raised RequestValidationError, s).
Proof.
  intros H.
  assert (Hr : required_str body "name" = Raised RequestValidationError).
  { unfold required_str. destruct H as [->|[->|[[b ->]|[n ->]]]]; done. }
  unfold post_players, post_teams, PlayerCreate.validate, TeamCreate.validate.
  rewrite !lift_bind, Hr.
  by rewrite ?collect_rejected_r, ?collect_rejected_l.
Qed.

Lemma creation_requires_name_witness :
  (teamless_body !! "name" = None ∨ teamless_body !! "name" = Some VNull
   ∨ (∃ b, teamless_body !! "name" = Some (VBool b))
   ∨ (∃ n, teamless_body !! "name" = Some (VInt n)))
  ∧ post_players teamless_body (OID id_none) 5 sample
    = (Raised RequestValidationError, sample)
  ∧ post_teams teamless_body (OID id_none) 5 sample
    = (Raised RequestValidationError, sample).
Proof.
  assert (H : teamless_body !! "name" = None ∨ teamless_body !! "name" = Some VNull
              ∨ (∃ b, teamless_body !! "name" = Some (VBool b))
              ∨ (∃ n, teamless_body !! "name" = Some (VInt n))) by (left; reflexivity).
  split; [exact H|].
  exact (creation_requires_name teamless_body (OID id_none) 5 sample H).
Defined.

Lemma created_dom c (dump : Doc) fresh now s r s' :
  dump !! "_id" = None →
  create_doc c dump fresh now s = (Ok r, s') →
  ∃ d : Doc,
    docs c s' = (docs c s ++ [d])%list
    ∧ dom d = {["_id"; "is_test"; "created_at"]} ∪ dom dump
    ∧ dom r = dom d
    ∧ ∀ k, k ≠ "_id" → k ≠ "is_test" → k ≠ "created_at" → d !! k = dump !! k.
Proof.
  intros Hid Hrun.
  destruct (create_doc_cases c dump fresh now s Hid) as [H|(d & Hd & _ & H)];
    [congruence|].
  rewrite H in Hrun. injection Hrun as <- <-. exists d.
  split; [by rewrite docs_with_docs|]. split; [|split].
  - rewrite Hd, !dom_insert_L. apply set_eq. intros x.
    rewrite !elem_of_union, !elem_of_singleton. tauto.
  - unfold as_answer. rewrite dom_insert_L, Hd, !dom_insert_L. apply set_eq. intros x.
    rewrite !elem_of_union, !elem_of_singleton. tauto.
  - intros k H1 H2 H3. rewrite Hd. by rewrite !lookup_insert_ne.
Qed.

(** X11. A create stores the fields of its model and nothing else from
    the body: the stored player, team or match has exactly the keys
    of the model, [_id], [is_test] and [created_at], so a key of the
    body that the model does not declare is dropped, and the answer has
    the same keys. *)
Theorem created_fields body fresh now s :
  (∀ r s', post_players body fresh now s = (Ok r, s') →
     ∃ d : Doc,
       docs Players s' = (docs Players s ++ [d])%list ∧ dom r = dom d
       ∧ dom d = {["_id"; "name"; "position"; "team_id"; "age"; "nationality";
                   "is_test"; "created_at"]})
  ∧ (∀ r s', post_teams body fresh now s = (Ok r, s') →
     ∃ d : Doc,
       docs Teams s' = (docs Teams s ++ [d])%list ∧ dom r = dom d
       ∧ dom d = {["_id"; "name"; "country"; "league"; "stadium";
                   "is_test"; "created_at"]})
  ∧ (∀ r s', post_matches body fresh now s = (Ok r, s') →
     ∃ d : Doc,
       docs Matches s' = (docs Matches s ++ [d])%list ∧ dom r = dom d
       ∧ dom d = {["_id"; "home_team_id"; "away_team_id"; "date"; "home_score";
                   "away_score"; "stadium"; "is_test"; "created_at"]}).
Proof.
  unfold post_players, post_teams, post_matches. rewrite !lift_bind.
  repeat match goal with |- _ ∧ _ => split end; intros r s'.
  - destruct (PlayerCreate.validate body) as [m|]; [|done]. intros Hrun.
    destruct (created_dom Players _ fresh now s r s' (PlayerCreate_no_id m) Hrun)
      as (d & Hl & Hd & Hr & _).
    exists d. split; [done|]. split; [done|]. rewrite Hd.
    unfold PlayerCreate.model_dump. rewrite !dom_insert_L, dom_empty_L. set_solver.
  - destruct (TeamCreate.validate body) as [m|]; [|done]. intros Hrun.
    destruct (created_dom Teams _ fresh now s r s' (TeamCreate_no_id m) Hrun)
      as (d & Hl & Hd & Hr & _).
    exists d. split; [done|]. split; [done|]. rewrite Hd.
    unfold TeamCreate.model_dump. rewrite !dom_insert_L, dom_empty_L. set_solver.
  - destruct (MatchCreate.validate body) as [m|]; [|done]. intros Hrun.
    destruct (created_dom Matches _ fresh now s r s' (MatchCreate_no_id m) Hrun)
      as (d & Hl & Hd & Hr & _).
    exists d. split; [done|]. split; [done|]. rewrite Hd.
    unfold MatchCreate.model_dump. rewrite !dom_insert_L, dom_empty_L. set_solver.
Qed.

(** ** serialize_doc *)

Lemma serialize_doc_text (d : Doc) t :
  d !! "_id" = Some (VStr t) →
  serialize_doc (Some d) = Ok (Some (<["_id" := VStr t]> d)).
Proof.
  intros Hid. unfold serialize_doc. rewrite (found_of_id d _ Hid). simpl.
  by rewrite Hid.
Qed.

(** X12. [serialize_doc] touches [_id] only and may be applied twice:
    what it answers, it answers again unchanged; every other field is as
    in the document; [None] and the empty document come back as they
    are; a non-empty document without [_id] raises [KeyError]. *)
Theorem serialize_doc_once doc :
  (∀ r, serialize_doc doc = Ok r → serialize_doc r = Ok r)
  ∧ (∀ d a : Doc, doc = Some d → serialize_doc doc = Ok (Some a) →
       dom a = dom d ∧ ∀ k, k ≠ "_id" → a !! k = d !! k)
  ∧ (doc = None ∨ doc = Some ∅ → serialize_doc doc = Ok doc)
  ∧ (∀ d : Doc, doc = Some d → d ≠ ∅ → d !! "_id" = None →
       serialize_doc doc = Raised (KeyError "_id")).
Proof.
  repeat match goal with |- _ ∧ _ => split end.
  - intros r. unfold serialize_doc at 1.
    destruct doc as [d|]; simpl; [|by intros [= <-]].
    case_bool_decide as Hne; simpl; [|intros [= <-]; by subst d].
    destruct (d !! "_id") as [v|] eqn:Hid; [|done].
    destruct (str v) as [t|] eqn:Hs; [|done]. intros [= <-].
    rewrite (serialize_doc_text _ t); [|apply lookup_insert_eq].
    by rewrite insert_insert_eq.
  - intros d a -> . unfold serialize_doc. simpl.
    case_bool_decide as Hne; simpl.
    + destruct (d !! "_id") as [v|] eqn:Hid; [|done].
      destruct (str v) as [t|]; [|done]. intros [= <-]. split.
      * rewrite dom_insert_L. apply elem_of_dom_2 in Hid. apply set_eq. intros x.
        rewrite elem_of_union, elem_of_singleton. split; [intros [->|]|]; auto.
      * intros k Hk. by rewrite lookup_insert_ne.
    + by intros [= <-].
  - intros [->| ->]; [done|]. unfold serialize_doc. simpl.
    by rewrite bool_decide_eq_false_2 by (by intros H; apply H).
  - intros d -> Hne Hid. unfold serialize_doc. simpl.
    by rewrite bool_decide_eq_true_2, Hid.
Qed.

Lemma serialize_doc_once_witness :
  real_player ≠ ∅
  ∧ serialize_doc (Some real_player) = Ok (Some (as_answer (OID id_real) real_player))
  ∧ serialize_doc (Some (as_answer (OID id_real) real_player))
    = Ok (Some (as_answer (OID id_real) real_player))
  ∧ serialize_doc (Some ∅) = Ok (Some ∅).
Proof.
  assert (Hrun : serialize_doc (Some real_player)
                 = Ok (Some (as_answer (OID id_real) real_player)))
    by (by apply serialize_stored).
  split; [|split; [exact Hrun|split]].
  - intros E. apply (f_equal (λ m : Doc, m !! "name")) in E. discriminate.
  - destruct (serialize_doc_once (Some real_player)) as (Htwice & _).
    exact (Htwice _ Hrun).
  - destruct (serialize_doc_once (Some ∅)) as (_ & _ & Hempty & _).
    apply Hempty. by right.
Defined.

Lemma created_fields_witness :
  ∃ r s' (d : Doc),
    post_players any_body (OID id_none) 5 sample = (Ok r, s')
    ∧ docs Players s' = (docs Players sample ++ [d])%list ∧ dom r = dom d
    ∧ dom d = {["_id"; "name"; "position"; "team_id"; "age"; "nationality";
                "is_test"; "created_at"]}
    ∧ any_body !! "home_team_id" = Some (VStr "A").
Proof.
  assert (∃ r s', post_players any_body (OID id_none) 5 sample = (Ok r, s'))
    as (r & s' & Hrun) by (eexists _, _; vm_compute; reflexivity).
  destruct (created_fields any_body (OID id_none) 5 sample) as (Hp & _).
  destruct (Hp r s' Hrun) as (d & Hl & Hr & Hd).
  exists r, s', d. repeat (split; [done|]). reflexivity.
Defined.

(** ** All the filters together *)












(** ** How the operations compose *)

Lemma with_docs_twice c l l' s : with_docs c l (with_docs c l' s) = with_docs c l s.
Proof. by destruct c. Qed.

Lemma filter_test_data_gone (l : list Doc) :
  List.filter is_test_data (List.filter (λ d, negb (is_test_data d)) l) = [].
Proof.
  induction l as [|a l IH]; [done|]. simpl.
  destruct (is_test_data a) eqn:E; simpl; [done|]. by rewrite E.
Qed.

Lemma filter_not_test_data_twice (l : list Doc) :
  List.filter (λ d, negb (is_test_data d)) (List.filter (λ d, negb (is_test_data d)) l)
  = List.filter (λ d, negb (is_test_data d)) l.
Proof.
  induction l as [|a l IH]; [done|]. simpl.
  destruct (is_test_data a) eqn:E; simpl; [done|]. by rewrite E, IH.
Qed.

(** X14. The cleanup is idempotent: run again on what it left, it
    removes nothing, reports three zeros and leaves the database as it
    found it. *)
Theorem cleanup_twice s :
  cleanup_test_data (snd (cleanup_test_data s))
  = (Ok (mkCleanup "Test data cleaned up"
           (<["players" := 0]> (<["teams" := 0]> (<["matches" := 0]> ∅)))),
     snd (cleanup_test_data s)).
Proof.
  rewrite (cleanup_run s). simpl. rewrite cleanup_run. simpl.
  by rewrite !filter_test_data_gone, !filter_not_test_data_twice.
Qed.

(** X15. What a create stores, the cleanup removes: the cleanup run
    after a successful create leaves the database that the cleanup run
    instead of it would leave, and counts one record more in the
    collection of the create. *)
Theorem cleanup_after_create c (dump : Doc) fresh now s r s' :
  dump !! "_id" = None →
  create_doc c dump fresh now s = (Ok r, s') →
  ∃ report report' t,
    cleanup_test_data s = (Ok report, t)
    ∧ cleanup_test_data s' = (Ok report', t)
    ∧ (∀ n, deleted report !! plural c = Some n →
            deleted report' !! plural c = Some (n + 1))
    ∧ (∀ c', c' ≠ c → deleted report' !! plural c' = deleted report !! plural c').
Proof.
  intros Hid Hrun.
  destruct (create_doc_cases c dump fresh now s Hid) as [H|(d & Hd & _ & H)];
    [congruence|].
  rewrite H in Hrun. injection Hrun as _ <-.
  assert (Ht : is_test_data d = true).
  { unfold is_test_data. apply bool_decide_eq_true. rewrite Hd. by simplify_map_eq. }
  assert (Hkeep : ∀ l, List.filter (λ d, negb (is_test_data d)) (l ++ [d])
                       = List.filter (λ d, negb (is_test_data d)) l).
  { intros l. rewrite List.filter_app. simpl. rewrite Ht. simpl. apply app_nil_r. }
  assert (Hcount : ∀ l, Z.of_nat (length (List.filter is_test_data (l ++ [d])))
                        = Z.of_nat (length (List.filter is_test_data l)) + 1).
  { intros l. rewrite List.filter_app. simpl. rewrite Ht.
    rewrite length_app. simpl. lia. }
  destruct c; (eexists _, _, _; split; [apply cleanup_run|]);
    rewrite cleanup_run; simpl; rewrite Hkeep, Hcount;
    (split; [reflexivity|]); split.
  all: try (intros n; simplify_map_eq; by intros [= <-]).
  all: intros [] Hne; try done; by simplify_map_eq.
Qed.

Lemma cleanup_after_create_witness :
  PlayerCreate.model_dump zed !! "_id" = None
  ∧ ∃ r s' report report' t,
      create_player zed (OID id_none) 5 sample
      = (Ok r, s')
      ∧ cleanup_test_data sample = (Ok report, t)
      ∧ cleanup_test_data s' = (Ok report', t)
      ∧ deleted report !! "players" = Some 1
      ∧ deleted report' !! "players" = Some 2.
Proof.
  split; [reflexivity|].
  assert (Hz : PlayerCreate.model_dump zed !! "_id" = None) by reflexivity.
  destruct (create_doc_succeeds Players (PlayerCreate.model_dump zed)
              (OID id_none) 5 sample Hz (sample_unused Players))
    as (r & s' & Hrun).
  destruct (cleanup_after_create Players (PlayerCreate.model_dump zed) (OID id_none) 5
              sample r s' Hz Hrun)
    as (report & report' & t & H1 & H2 & Hn & _).
  exists r, s', report, report', t. split; [exact Hrun|].
  split; [exact H1|]. split; [exact H2|].
  assert (Hone : deleted report !! "players" = Some 1).
  { rewrite cleanup_run in H1. injection H1 as <- _. reflexivity. }
  split; [exact Hone|]. exact (Hn 1 Hone).
Defined.

Lemma created_is_test (dump : Doc) fresh now :
  (<["_id" := VOid fresh]>
     (<["created_at" := VDate now]> (<["is_test" := VBool true]> dump))) !! "is_test"
  = Some (VBool true).
Proof. by simplify_map_eq. Qed.

(** X16. A delete undoes a create: after a successful create, the
    delete by the text of the drawn identifier answers the confirmation
    and leaves the database as it was before the create. *)
Theorem delete_after_create c (dump : Doc) fresh now s r s' :
  dump !! "_id" = None → ObjectId_of (str_oid fresh) = Some fresh →
  create_doc c dump fresh now s = (Ok r, s') →
  delete_doc c (str_oid fresh) s'
  = (Ok {["message" := VStr (Noun c ++ " deleted successfully")]}, s).
Proof.
  intros Hid Hoid Hrun.
  destruct (create_doc_cases c dump fresh now s Hid) as [H|(d & Hd & Hun & H)];
    [congruence|].
  rewrite H in Hrun. injection Hrun as _ <-.
  assert (Hdid : d !! "_id" = Some (VOid fresh)) by (rewrite Hd; apply lookup_insert_eq).
  assert (Hl1 : ∀ y : Doc, y ∈ docs c s → qmatch (by_id fresh) y = false).
  { intros y Hy. rewrite qmatch_by_id. apply bool_decide_eq_false. by apply Hun. }
  assert (Hm : qmatch (by_id fresh) d = true).
  { rewrite qmatch_by_id. by apply bool_decide_eq_true. }
  rewrite delete_doc_unfold, (resolve_valid _ _ fresh) by done.
  unfold cursor. rewrite docs_with_docs, head_filter_app by done.
  rewrite (found_of_id d _ Hdid). simpl.
  assert (truthy (d !! "is_test") = true) as ->.
  { rewrite Hd, created_is_test. reflexivity. }
  simpl. run. rewrite Hoid. simpl. rewrite by_id_supported.
  rewrite docs_with_docs, delete_first_split by done.
  by rewrite app_nil_r, with_docs_twice, with_docs_same.
Qed.

Lemma delete_after_create_witness :
  PlayerCreate.model_dump zed !! "_id" = None
  ∧ ObjectId_of (str_oid (OID id_none)) = Some (OID id_none)
  ∧ ∃ r s',
      create_player zed (OID id_none) 5 sample
      = (Ok r, s')
      ∧ delete_player id_none s'
        = (Ok {["message" := VStr "Player deleted successfully"]}, sample).
Proof.
  split; [reflexivity|]. split; [reflexivity|].
  assert (Hz : PlayerCreate.model_dump zed !! "_id" = None) by reflexivity.
  destruct (create_doc_succeeds Players (PlayerCreate.model_dump zed)
              (OID id_none) 5 sample Hz (sample_unused Players))
    as (r & s' & Hrun).
  exists r, s'. split; [exact Hrun|].
  exact (delete_after_create Players (PlayerCreate.model_dump zed) (OID id_none) 5
           sample r s' Hz eq_refl Hrun).
Defined.

(** X17. An update answers what a get then answers: after an update
    that succeeds, get by the same identifier answers the same record
    and changes nothing. *)
Theorem get_after_update c id (dump : Doc) now s a s' :
  dump !! "_id" = None →
  update_doc c id dump now s = (Ok a, s') →
  get_doc c id s' = (Ok a, s').
Proof.
  intros Hid Hrun.
  destruct (update_doc_cases c id dump now s Hid)
    as [[e H]|(oid & d & Hoid & Hd & Hdid & _ & [H|(l1 & l2 & Hl & Hl1 & H)])];
    [congruence|..]; rewrite H in Hrun; injection Hrun as <- <-.
  - rewrite get_doc_unfold, (resolve_valid _ _ oid), Hd by done.
    rewrite (found_of_id d _ Hdid). simpl. by rewrite (serialize_stored d oid).
  - assert (Hid' : (<["updated_at" := VDate now]>
                      (filter (λ kv : string * value, kv.2 ≠ VNull) dump) ∪ d) !! "_id"
                   = Some (VOid oid)).
    { rewrite merge_keeps; [done|done|by left]. }
    rewrite get_doc_unfold, (resolve_valid _ _ oid) by done.
    unfold cursor. rewrite docs_with_docs, head_filter_app; [|done|].
    + rewrite (found_of_id _ _ Hid'). simpl. by rewrite (serialize_stored _ oid).
    + rewrite qmatch_by_id. by apply bool_decide_eq_true.
Qed.

Lemma get_after_update_witness :
  PlayerUpdate.model_dump age_update !! "_id" = None
  ∧ ∃ a s',
      update_player id_test age_update 9 sample = (Ok a, s')
      ∧ get_player id_test s' = (Ok a, s').
Proof.
  split; [reflexivity|].
  assert (∃ a s', update_player id_test age_update 9 sample = (Ok a, s'))
    as (a & s' & Hrun) by (eexists _, _; vm_compute; reflexivity).
  exists a, s'. split; [exact Hrun|].
  exact (get_after_update Players id_test (PlayerUpdate.model_dump age_update) 9
           sample a s' eq_refl Hrun).
Defined.
